(** * create_channles.py: bulk creation of Slack channels

    A shallow embedding of [src/create_channles.py] and the properties of its
    workflow: configuration loading, the query for existing channels, the
    duplicate check, and the per-channel create / setPurpose / invite
    sequence.

    The script talks to two outside parties, the file system and the Slack
    Web API.  Both are inputs of the model: a file is given by what reading
    it produces, and the API is an arbitrary transition function [net] over
    an abstract world state.  A run returns its result (a value or a raised
    exception), the chronological trace of its observable events (requests,
    log lines, sleeps) and the final world. *)

From Stdlib Require Import List String Ascii ZArith Bool Lia.
Import ListNotations.
Local Open Scope string_scope.
Local Open Scope list_scope.
Local Set Warnings "-register-all".

(** ** Values *)

(** What [json.load] and [response.json()] produce.  A Python [dict] is an
    association list read through [dict_lookup] (first binding); numbers are
    integers, floats are outside the model.  A [string] stands for the
    sequence of characters of the Python [str]. *)
Inductive json : Type :=
| JNull
| JBool (b : bool)
| JInt (n : Z)
| JStr (s : string)
| JArr (items : list json)
| JObj (fields : list (string * json)).

(** The exceptions the script can meet.  [RequestException] stands for
    [requests.exceptions.RequestException] and its subclasses
    ([ConnectionError], [Timeout], [HTTPError]); [PlainException] is the
    [Exception(...)] built in [invite_users_to_channel]. *)
Inductive exn : Type :=
| IOError
| JSONDecodeError
| UnicodeDecodeError
| RequestException
| KeyError
| TypeError
| AttributeError
| PlainException.

Inductive res (A : Type) : Type :=
| Val (a : A)
| Raise (e : exn).
Arguments Val {A} a.
Arguments Raise {A} e.

Fixpoint dict_lookup (k : string) (fields : list (string * json)) : option json :=
  match fields with
  | [] => None
  | (k', v) :: rest => if String.eqb k k' then Some v else dict_lookup k rest
  end.

(** [v[k]] for a string key [k]. *)
Definition py_getitem (v : json) (k : string) : res json :=
  match v with
  | JObj fields =>
      match dict_lookup k fields with
      | Some x => Val x
      | None => Raise KeyError
      end
  | _ => Raise TypeError
  end.

(** [v.get(k, d)]: only a [dict] has the method. *)
Definition py_get (v : json) (k : string) (d : json) : res json :=
  match v with
  | JObj fields =>
      match dict_lookup k fields with
      | Some x => Val x
      | None => Val d
      end
  | _ => Raise AttributeError
  end.

(** Python truth value, as tested by [not x]. *)
Definition truthy (v : json) : bool :=
  match v with
  | JNull => false
  | JBool b => b
  | JInt n => negb (Z.eqb n 0)
  | JStr s => negb (String.eqb s "")
  | JArr items => match items with [] => false | _ => true end
  | JObj fields => match fields with [] => false | _ => true end
  end.

(** The items a [for] loop or a comprehension visits: the elements of a
    list, the keys of a dict, the characters of a string. *)
Definition py_iter (v : json) : res (list json) :=
  match v with
  | JArr items => Val items
  | JObj fields => Val (map (fun kv => JStr (fst kv)) fields)
  | JStr s => Val (map (fun c => JStr (String c EmptyString)) (list_ascii_of_string s))
  | _ => Raise TypeError
  end.

(** Hashable values up to Python equality: [True == 1] and [False == 0]
    hash and compare alike, lists and dicts are unhashable. *)
Inductive pykey : Type :=
| KNone
| KInt (n : Z)
| KStr (s : string).

Definition pykey_eq_dec (a b : pykey) : {a = b} + {a <> b}.
Proof.
  decide equality; [apply Z.eq_dec | apply string_dec].
Defined.

Definition hash_key (v : json) : res pykey :=
  match v with
  | JNull => Val KNone
  | JBool b => Val (KInt (if b then 1 else 0)%Z)
  | JInt n => Val (KInt n)
  | JStr s => Val (KStr s)
  | JArr _ | JObj _ => Raise TypeError
  end.

(** A Python [set] of hashable values; only membership is observed. *)
Definition pyset := list pykey.

Definition set_mem (k : pykey) (s : pyset) : bool :=
  if in_dec pykey_eq_dec k s then true else false.

(** [",".join(v)]: every item must be a [str]. *)
Fixpoint join_strs (items : list json) : res string :=
  match items with
  | [] => Val ""
  | JStr s :: rest =>
      match rest with
      | [] => Val s
      | _ =>
          match join_strs rest with
          | Val t => Val (s ++ "," ++ t)%string
          | Raise e => Raise e
          end
      end
  | _ :: _ => Raise TypeError
  end.

Definition py_join (v : json) : res string :=
  match py_iter v with
  | Val items => join_strs items
  | Raise e => Raise e
  end.

(** ** The outside world *)

(** The four Slack Web API calls the script makes.  Token, headers and the
    fixed query parameters of [conversations.list] are constants of the
    script and are left out. *)
Inductive request : Type :=
| ConversationsList
| ConversationsCreate (name is_private : json)
| ConversationsSetPurpose (channel purpose : json)
| ConversationsInvite (channel : json) (users : string).

(** A response object of [requests]: whether [raise_for_status] passes, and
    the decoded body.  Bodies are assumed to decode as JSON. *)
Record response : Type := Response {
  status_ok : bool;
  body : json
}.

(** What opening and parsing a configuration file gives. *)
Inductive file : Type :=
| FileUnreadable            (* [open] raises [IOError] *)
| FileBadEncoding           (* reading raises [UnicodeDecodeError] *)
| FileMalformed             (* [json.load] raises [JSONDecodeError] *)
| FileJson (content : json).

(** Log lines, one constructor per logging call of the script. *)
Inductive log_msg : Type :=
| LogListError (error : json)
| LogListNeeded (needed : json)
| LogListException
| LogCreateError (name error : json)
| LogCreateNeeded (name needed : json)
| LogCreateData (name data : json)
| LogPurposeError (name error : json)
| LogStars
| LogCreated (name : json)
| LogCreateException (name : json)
| LogConfigError
| LogDuplicate (name : json)
| LogAbort (name : json).

Inductive event : Type :=
| Net (r : request)
| Log (m : log_msg)
| Sleep (seconds : Z).

Definition trace := list event.

Fixpoint requests_of (t : trace) : list request :=
  match t with
  | [] => []
  | Net r :: rest => r :: requests_of rest
  | _ :: rest => requests_of rest
  end.

Fixpoint sleeps_of (t : trace) : list Z :=
  match t with
  | [] => []
  | Sleep s :: rest => s :: sleeps_of rest
  | _ :: rest => sleeps_of rest
  end.

Inductive request_kind : Type := KList | KCreate | KSetPurpose | KInvite.

Definition kind_of (r : request) : request_kind :=
  match r with
  | ConversationsList => KList
  | ConversationsCreate _ _ => KCreate
  | ConversationsSetPurpose _ _ => KSetPurpose
  | ConversationsInvite _ _ => KInvite
  end.

Definition kind_eqb (a b : request_kind) : bool :=
  match a, b with
  | KList, KList | KCreate, KCreate
  | KSetPurpose, KSetPurpose | KInvite, KInvite => true
  | _, _ => false
  end.

Definition count_kind (k : request_kind) (t : trace) : nat :=
  List.length (filter (fun r => kind_eqb (kind_of r) k) (requests_of t)).

(** How [main] ends when no exception escapes it.  Both ways return [None]
    and leave the same exit status; the model keeps them apart. *)
Inductive exit : Type :=
| FellOffEnd       (* both loops ran to their end *)
| ReturnedEarly.   (* one of the [return] statements *)

(** ** The script *)

Section Script.

Variable World : Type.

(** One API round trip: [None] when [requests.get] / [requests.post]
    itself raises (no response was received). *)
Variable net : World -> request -> option response * World.

(** Computations: read and advance the world, emit events, return a
    value or raise. *)
Definition M (A : Type) : Type := World -> res A * trace * World.

Definition ret {A} (a : A) : M A := fun w => (Val a, [], w).

Definition raise {A} (e : exn) : M A := fun w => (Raise e, [], w).

Definition bind {A B} (m : M A) (f : A -> M B) : M B :=
  fun w =>
    match m w with
    | (Val a, t1, w1) =>
        match f a w1 with
        | (r, t2, w2) => (r, t1 ++ t2, w2)
        end
    | (Raise e, t1, w1) => (Raise e, t1, w1)
    end.

Definition lift {A} (r : res A) : M A := fun w => (r, [], w).

Definition emit (e : event) : M unit := fun w => (Val tt, [e], w).

(** [try: m  except <handled>: h] *)
Definition try_except {A} (m : M A) (handled : exn -> bool) (h : M A) : M A :=
  fun w =>
    match m w with
    | (Val a, t1, w1) => (Val a, t1, w1)
    | (Raise e, t1, w1) =>
        if handled e then
          match h w1 with
          | (r, t2, w2) => (r, t1 ++ t2, w2)
          end
        else (Raise e, t1, w1)
    end.

Notation "x <- m ;; k" := (bind m (fun x => k))
  (at level 61, m at next level, right associativity).
Notation "m ;;; k" := (bind m (fun _ => k))
  (at level 61, right associativity).

Definition logging (m : log_msg) : M unit := emit (Log m).

Definition time_sleep (s : Z) : M unit := emit (Sleep s).

(** [requests.get(...)] / [requests.post(...)] *)
Definition requests_send (r : request) : M response :=
  fun w =>
    match net w r with
    | (Some resp, w1) => (Val resp, [Net r], w1)
    | (None, w1) => (Raise RequestException, [Net r], w1)
    end.

Definition raise_for_status (resp : response) : M unit :=
  if status_ok resp then ret tt else raise RequestException.

Definition response_json (resp : response) : M json := ret (body resp).

Definition is_request_exception (e : exn) : bool :=
  match e with RequestException => true | _ => false end.

Definition is_config_exception (e : exn) : bool :=
  match e with IOError | JSONDecodeError => true | _ => false end.

(** [except Exception]: every exception of the model is one. *)
Definition is_exception (e : exn) : bool := true.

Definition get_existing_channels : M json :=
  try_except
    (response <- requests_send ConversationsList ;;
     raise_for_status response ;;;
     data <- response_json response ;;
     ok <- lift (py_get data "ok" JNull) ;;
     if negb (truthy ok) then
       error_msg <- lift (py_get data "error" (JStr "Unknown error")) ;;
       needed_permissions <- lift (py_get data "needed" (JStr "Unknown permissions")) ;;
       logging (LogListError error_msg) ;;;
       logging (LogListNeeded needed_permissions) ;;;
       ret (JArr [])
     else
       lift (py_get data "channels" (JArr [])))
    is_request_exception
    (logging LogListException ;;;
     ret (JArr [])).

Definition invite_users_to_channel (channel_id user_ids : json) : M json :=
  users <- lift (py_join user_ids) ;;
  response <- requests_send (ConversationsInvite channel_id users) ;;
  try_except
    (raise_for_status response ;;;
     result <- response_json response ;;
     ok <- lift (py_get result "ok" (JBool false)) ;;
     if negb (truthy ok) then raise PlainException
     else ret result)
    is_exception
    (raise PlainException).

Definition create_channel (channel_name description is_private invite_users_list : json)
  : M bool :=
  try_except
    (response <- requests_send (ConversationsCreate channel_name is_private) ;;
     raise_for_status response ;;;
     data <- response_json response ;;
     ok <- lift (py_get data "ok" JNull) ;;
     if negb (truthy ok) then
       error_msg <- lift (py_get data "error" (JStr "Unknown error")) ;;
       needed_permissions <- lift (py_get data "needed" (JStr "Unknown permissions")) ;;
       logging (LogCreateError channel_name error_msg) ;;;
       logging (LogCreateNeeded channel_name needed_permissions) ;;;
       logging (LogCreateData channel_name data) ;;;
       ret false
     else
       channel <- lift (py_getitem data "channel") ;;
       channel_id <- lift (py_getitem channel "id") ;;
       topic_response <- requests_send (ConversationsSetPurpose channel_id description) ;;
       raise_for_status topic_response ;;;
       topic_data <- response_json topic_response ;;
       topic_ok <- lift (py_get topic_data "ok" JNull) ;;
       if negb (truthy topic_ok) then
         topic_error <- lift (py_get topic_data "error" (JStr "Unknown error")) ;;
         logging (LogPurposeError channel_name topic_error) ;;;
         logging LogStars ;;;
         ret false
       else
         logging (LogCreated channel_name) ;;;
         invite_users_to_channel channel_id invite_users_list ;;;
         ret true)
    is_request_exception
    (logging (LogCreateException channel_name) ;;;
     ret false).

(** [json.load] of an opened file. *)
Definition json_load (f : file) : M json :=
  match f with
  | FileUnreadable => raise IOError
  | FileBadEncoding => raise UnicodeDecodeError
  | FileMalformed => raise JSONDecodeError
  | FileJson content => ret content
  end.

(** [{channel["name"] for channel in existing_channels}] over the items
    of [existing_channels]. *)
Fixpoint names_of (items : list json) : res pyset :=
  match items with
  | [] => Val []
  | channel :: rest =>
      match py_getitem channel "name" with
      | Val v =>
          match hash_key v with
          | Val k =>
              match names_of rest with
              | Val s => Val (k :: s)
              | Raise e => Raise e
              end
          | Raise e => Raise e
          end
      | Raise e => Raise e
      end
  end.

Definition name_set (existing_channels : json) : res pyset :=
  match py_iter existing_channels with
  | Val items => names_of items
  | Raise e => Raise e
  end.

(** The first loop of [main]: [true] when it hit its [return]. *)
Fixpoint duplicate_check (existing_channel_names : pyset) (channels : list json)
  : M bool :=
  match channels with
  | [] => ret false
  | channel :: rest =>
      name <- lift (py_getitem channel "name") ;;
      k <- lift (hash_key name) ;;
      if set_mem k existing_channel_names then
        logging (LogDuplicate name) ;;;
        logging LogStars ;;;
        ret true
      else duplicate_check existing_channel_names rest
  end.

(** The second loop of [main]. *)
Fixpoint create_all (invite_users_list : json) (channels : list json) : M exit :=
  match channels with
  | [] => ret FellOffEnd
  | channel :: rest =>
      name <- lift (py_get channel "name" JNull) ;;
      description <- lift (py_get channel "description" (JStr "")) ;;
      is_private <- lift (py_get channel "is_private" (JBool false)) ;;
      users <- lift (py_getitem invite_users_list "users") ;;
      success <- create_channel name description is_private users ;;
      if negb success then
        logging (LogAbort name) ;;;
        ret ReturnedEarly
      else
        time_sleep 1 ;;;
        create_all invite_users_list rest
  end.

(** Lines 146-148: the set the duplicate check compares against. *)
Definition existing_names : M pyset :=
  existing_channels <- get_existing_channels ;;
  lift (name_set existing_channels).

(** Lines 146-169 of [main]: what runs once both files are loaded. *)
Definition run_batch (channels_list invite_users_list : json) : M exit :=
  existing_channel_names <- existing_names ;;
  channels <- lift (py_iter channels_list) ;;
  stop <- duplicate_check existing_channel_names channels ;;
  if stop then ret ReturnedEarly
  else create_all invite_users_list channels.

Definition main (channels_file invite_users_file : file) : M exit :=
  loaded <-
    try_except
      (channels_list <- json_load channels_file ;;
       invite_users_list <- json_load invite_users_file ;;
       ret (Some (channels_list, invite_users_list)))
      is_config_exception
      (logging LogConfigError ;;;
       ret None) ;;
  match loaded with
  | None => ret ReturnedEarly
  | Some (channels_list, invite_users_list) =>
      run_batch channels_list invite_users_list
  end.

End Script.

Arguments ret {World A} a.
Arguments raise {World A} e.
Arguments bind {World A B} m f.
Arguments lift {World A} r.
Arguments try_except {World A} m handled h.
Arguments emit {World} e.
Arguments logging {World} m.
Arguments time_sleep {World} s.
Arguments raise_for_status {World} resp.
Arguments response_json {World} resp.
Arguments json_load {World} f.
Arguments requests_send {World} net r.
Arguments get_existing_channels {World} net.
Arguments invite_users_to_channel {World} net channel_id user_ids.
Arguments create_channel {World} net channel_name description is_private invite_users_list.
Arguments duplicate_check {World} existing_channel_names channels.
Arguments create_all {World} net invite_users_list channels.
Arguments existing_names {World} net.
Arguments run_batch {World} net channels_list invite_users_list.
Arguments main {World} net channels_file invite_users_file.

(** Projections of a finished run. *)
Definition result_of {W A} (x : res A * trace * W) : res A := fst (fst x).
Definition trace_of {W A} (x : res A * trace * W) : trace := snd (fst x).
Definition world_of {W A} (x : res A * trace * W) : W := snd x.

(** ** Reading the API's answers *)

(** A call did not go through: nothing came back, or an HTTP error
    status, or a JSON object whose [ok] field is absent or falsy. *)
Inductive call_failed : option response -> Prop :=
| failed_transport : call_failed None
| failed_status : forall b, call_failed (Some (Response false b))
| failed_not_ok : forall fields ok,
    py_get (JObj fields) "ok" JNull = Val ok ->
    truthy ok = false ->
    call_failed (Some (Response true (JObj fields))).

(** A good status and a JSON object whose [ok] field is truthy. *)
Definition answered_ok (o : option response) (fields : list (string * json)) : Prop :=
  exists ok,
    o = Some (Response true (JObj fields)) /\
    dict_lookup "ok" fields = Some ok /\
    truthy ok = true.

(** [conversations.create] succeeded and named the new channel's id. *)
Definition created (o : option response) (channel_id : json) : Prop :=
  exists fields channel,
    answered_ok o fields /\
    dict_lookup "channel" fields = Some channel /\
    py_getitem channel "id" = Val channel_id.

(** A well-formed entry of [channels.json] or of the listing: an object
    with a hashable [name]. *)
Definition named (channel : json) (k : pykey) : Prop :=
  exists fields v,
    channel = JObj fields /\
    dict_lookup "name" fields = Some v /\
    hash_key v = Val k.

(** A configuration file that did not load. *)
Definition unusable (f : file) : Prop :=
  match f with
  | FileJson _ => False
  | _ => True
  end.

(** The arguments the second loop passes to [create_channel]. *)
Definition entry_name (channel : json) : res json := py_get channel "name" JNull.
Definition entry_description (channel : json) : res json :=
  py_get channel "description" (JStr "").
Definition entry_is_private (channel : json) : res json :=
  py_get channel "is_private" (JBool false).

(** What a request must get back to count as a success. *)
Definition call_succeeds (r : request) (o : option response) : Prop :=
  match r with
  | ConversationsCreate _ _ => exists channel_id, created o channel_id
  | _ => exists fields, answered_ok o fields
  end.

(** The events of one channel provisioned in full: create, setPurpose on
    the id the create call returned, the info log line, invite on the same
    id, and the one second pause. *)
Definition provisioned_block (users : string) (channel : json) (block : trace) : Prop :=
  exists name desc priv channel_id,
    entry_name channel = Val name /\
    entry_description channel = Val desc /\
    entry_is_private channel = Val priv /\
    block = [Net (ConversationsCreate name priv);
             Net (ConversationsSetPurpose channel_id desc);
             Log (LogCreated name);
             Net (ConversationsInvite channel_id users);
             Sleep 1].

(** A good status and a body that is valid JSON but not an object. *)
Definition not_object (o : option response) : Prop :=
  exists b, o = Some (Response true b) /\ forall fields, b <> JObj fields.

(** The exceptions of a misread value: a missing key, a value of the
    wrong type, a method that is not there. *)
Definition misread (e : exn) : Prop :=
  e = KeyError \/ e = TypeError \/ e = AttributeError.

(** What can leave [create_channel]: a misread value, or the plain
    [Exception] of a refused invitation. *)
Definition escapes (e : exn) : Prop :=
  misread e \/ e = PlainException.

(** ** Test doubles for the API *)

(** Answers are read off a script, one per request, whatever the request;
    past its end every request fails in transport. *)
Definition scripted (script : list (option response)) (r : request)
  : option response * list (option response) :=
  match script with
  | [] => (None, [])
  | answer :: rest => (answer, rest)
  end.

Definition ok_response (fields : list (string * json)) : option response :=
  Some (Response true (JObj (("ok", JBool true) :: fields))).

Definition error_response (code : string) : option response :=
  Some (Response true (JObj [("ok", JBool false); ("error", JStr code)])).

Definition listing (names : list string) : option response :=
  ok_response
    [("channels",
      JArr (map (fun n => JObj [("id", JStr ("C-" ++ n)%string); ("name", JStr n)]) names))].

Definition created_response (id : string) : option response :=
  ok_response [("channel", JObj [("id", JStr id)])].

Definition entry (name : string) : json := JObj [("name", JStr name)].

Definition invitees (ids : list string) : json :=
  JObj [("users", JArr (map JStr ids))].

Definition demo_users : json := invitees ["U1"; "U2"].

(** The events of provisioning the channel [name] in full, when the
    create call returned [id] and the invitees are [demo_users]. *)
Definition demo_block (name id : string) : trace :=
  [Net (ConversationsCreate (JStr name) (JBool false));
   Net (ConversationsSetPurpose (JStr id) (JStr ""));
   Log (LogCreated (JStr name));
   Net (ConversationsInvite (JStr id) "U1,U2");
   Sleep 1].

(** A workspace where everything succeeds: one existing channel
    [general], every new channel gets the id [C1]. *)
Definition friendly (w : unit) (r : request) : option response * unit :=
  match r with
  | ConversationsList => (listing ["general"], tt)
  | ConversationsCreate _ _ => (created_response "C1", tt)
  | ConversationsSetPurpose _ _ => (ok_response [], tt)
  | ConversationsInvite _ _ => (ok_response [], tt)
  end.

(** * Properties *)

Section Properties.

Context {World : Type}.
Variable net : World -> request -> option response * World.

Ltac runs := unfold result_of, trace_of, world_of in *; simpl in *.

(** ** Sequencing *)

Lemma requests_of_app t1 t2 :
  requests_of (t1 ++ t2) = requests_of t1 ++ requests_of t2.
Proof.
  induction t1 as [|e t1 IH]; simpl; [reflexivity|].
  destruct e; simpl; rewrite IH; reflexivity.
Qed.

Lemma sleeps_of_app t1 t2 :
  sleeps_of (t1 ++ t2) = sleeps_of t1 ++ sleeps_of t2.
Proof.
  induction t1 as [|e t1 IH]; simpl; [reflexivity|].
  destruct e; simpl; rewrite IH; reflexivity.
Qed.

Lemma set_mem_false k s : set_mem k s = false <-> ~ In k s.
Proof.
  unfold set_mem. destruct (in_dec pykey_eq_dec k s); split; intros; auto;
    try discriminate; contradiction.
Qed.

Lemma named_getitem channel k :
  named channel k ->
  exists v, py_getitem channel "name" = Val v /\ hash_key v = Val k.
Proof.
  intros (fields & v & -> & Hl & Hh). exists v. simpl. rewrite Hl. auto.
Qed.

(** ** The listing *)

(** [get_existing_channels] sends exactly one request, whatever comes
    back. *)
Lemma get_existing_channels_requests w :
  requests_of (trace_of (get_existing_channels net w)) = [ConversationsList].
Proof.
  unfold get_existing_channels, try_except, bind, requests_send.
  destruct (net w ConversationsList) as [[[st b]|] w1]; simpl; [|reflexivity].
  destruct st; simpl; [|reflexivity].
  destruct b; simpl; try reflexivity.
  destruct (dict_lookup "ok" fields) as [ok|]; simpl.
  - destruct (truthy ok); simpl.
    + destruct (dict_lookup "channels" fields); reflexivity.
    + destruct (dict_lookup "error" fields), (dict_lookup "needed" fields); reflexivity.
  - destruct (dict_lookup "error" fields), (dict_lookup "needed" fields); reflexivity.
Qed.

Lemma existing_names_requests w :
  requests_of (trace_of (existing_names net w)) = [ConversationsList].
Proof.
  unfold existing_names, bind.
  pose proof (get_existing_channels_requests w) as H.
  destruct (get_existing_channels net w) as [[[j|e] t] w1]; simpl in *.
  - unfold lift. rewrite app_nil_r. exact H.
  - exact H.
Qed.

(** ** Loading the configuration *)

Lemma main_loaded cl ul w :
  main net (FileJson cl) (FileJson ul) w = run_batch net cl ul w.
Proof.
  unfold main, bind, try_except. simpl.
  destruct (run_batch net cl ul w) as [[r t] w1]. reflexivity.
Qed.

(** C9: when either configuration file cannot be opened, decoded or
    parsed as JSON, [main] stops without sending any request: the world is
    untouched, the trace holds no request, and the run does not reach
    the end of the batch. *)
Theorem config_failure_before_network cf uf w :
  unusable cf \/ unusable uf ->
  world_of (main net cf uf w) = w /\
  requests_of (trace_of (main net cf uf w)) = [] /\
  result_of (main net cf uf w) <> Val FellOffEnd.
Proof.
  intros H.
  destruct cf as [| | |cl]; try (repeat split; simpl; discriminate || reflexivity).
  destruct uf as [| | |ul]; try (repeat split; simpl; discriminate || reflexivity).
  destruct H as [[]|[]].
Qed.

(** ** The listing, degraded *)

(** C3: when the listing request fails in transport, or comes back with
    an error status or with [ok] false, [get_existing_channels] returns
    the empty list and raises nothing; a successful listing with no
    channel returns the very same value. *)
Theorem read_failure_returns_empty w :
  call_failed (fst (net w ConversationsList)) ->
  result_of (get_existing_channels net w) = Val (JArr []) /\
  forall w' fields,
    answered_ok (fst (net w' ConversationsList)) fields ->
    dict_lookup "channels" fields = Some (JArr []) ->
    result_of (get_existing_channels net w') = result_of (get_existing_channels net w).
Proof.
  intros H.
  assert (E : result_of (get_existing_channels net w) = Val (JArr [])).
  { unfold get_existing_channels, try_except, bind, requests_send.
    destruct (net w ConversationsList) as [o w1]; simpl in H.
    inversion H as [|b|fields ok Hget Hok]; subst; simpl; try reflexivity.
    simpl in Hget. unfold lift.
    destruct (dict_lookup "ok" fields) as [x|]; inversion Hget; subst;
      simpl; try rewrite Hok; simpl;
      destruct (dict_lookup "error" fields), (dict_lookup "needed" fields); reflexivity. }
  split; [exact E|].
  intros w' fields (ok & Hresp & Hl & Hok) Hch. rewrite E.
  unfold get_existing_channels, try_except, bind, requests_send.
  destruct (net w' ConversationsList) as [o w1]; simpl in Hresp; subst o; simpl.
  unfold lift. rewrite Hl. simpl. rewrite Hok. simpl. rewrite Hch. reflexivity.
Qed.

(** ** The duplicate check *)

(** The check only reads and logs. *)
Lemma duplicate_check_silent E l (w : World) :
  world_of (duplicate_check E l w) = w /\
  requests_of (trace_of (duplicate_check E l w)) = [] /\
  sleeps_of (trace_of (duplicate_check E l w)) = [].
Proof.
  induction l as [|c l IH]; simpl; [auto|].
  unfold bind, lift.
  destruct (py_getitem c "name") as [v|e]; simpl; [|auto].
  destruct (hash_key v) as [k|e]; simpl; [|auto].
  destruct (set_mem k E); simpl; [auto|].
  destruct (duplicate_check E l w) as [[r t] w1]; simpl in *. exact IH.
Qed.

(** Without a colliding entry the check passes and logs nothing. *)
Lemma duplicate_check_pass E l (w : World) :
  Forall (fun c => exists k, named c k /\ ~ In k E) l ->
  duplicate_check E l w = (Val false, [], w).
Proof.
  induction 1 as [|c l (k & Hn & Hk) _ IH]; simpl; [reflexivity|].
  destruct (named_getitem _ _ Hn) as (v & Hv & Hh).
  unfold bind, lift. rewrite Hv. simpl. rewrite Hh. simpl.
  apply set_mem_false in Hk. rewrite Hk. rewrite IH. reflexivity.
Qed.

(** An entry the check cannot get past: every name it could read from it
    is an existing one.  That covers a colliding entry and an entry
    without a readable name. *)
Lemma duplicate_check_blocked E l (w : World) c :
  In c l ->
  (forall v k, py_getitem c "name" = Val v -> hash_key v = Val k -> In k E) ->
  result_of (duplicate_check E l w) <> Val false.
Proof.
  intros Hin Hc. induction l as [|c' l IH]; [destruct Hin|].
  simpl. unfold bind, lift.
  destruct (py_getitem c' "name") as [v'|e] eqn:Hv'; simpl; [|discriminate].
  destruct (hash_key v') as [k'|e] eqn:Hh'; simpl; [|discriminate].
  destruct (set_mem k' E) eqn:Hm; simpl; [discriminate|].
  destruct Hin as [->|Hin].
  - apply set_mem_false in Hm. elim Hm. eapply Hc; eassumption.
  - specialize (IH Hin).
    destruct (duplicate_check E l w) as [[r t] w1]; runs. exact IH.
Qed.

(** ** One channel *)

Lemma answered_ok_get o fields :
  answered_ok o fields ->
  exists ok, o = Some (Response true (JObj fields)) /\
             (forall d, py_get (JObj fields) "ok" d = Val ok) /\ truthy ok = true.
Proof.
  intros (ok & Ho & Hl & Ht). exists ok. simpl. rewrite Hl. auto.
Qed.

(** The create call fails: [False], and the create call is the only
    request. *)
Lemma create_channel_create_failed name desc priv us w :
  call_failed (fst (net w (ConversationsCreate name priv))) ->
  let one := create_channel net name desc priv us w in
  result_of one = Val false /\
  requests_of (trace_of one) = [ConversationsCreate name priv] /\
  sleeps_of (trace_of one) = [] /\
  world_of one = snd (net w (ConversationsCreate name priv)).
Proof.
  intros H. cbv zeta.
  unfold create_channel, try_except, bind, requests_send, lift.
  destruct (net w (ConversationsCreate name priv)) as [o w1]; simpl in H.
  inversion H as [|b|fields ok Hget Hok]; subst; runs; auto.
  destruct (dict_lookup "ok" fields) as [x|]; inversion Hget; subst;
    runs; try rewrite Hok; runs;
    destruct (dict_lookup "error" fields), (dict_lookup "needed" fields); runs; auto.
Qed.

(** The create call succeeds and the setPurpose call fails: [False]
    again, and no invite call. *)
Lemma create_channel_purpose_failed name desc priv us w id :
  created (fst (net w (ConversationsCreate name priv))) id ->
  call_failed
    (fst (net (snd (net w (ConversationsCreate name priv)))
              (ConversationsSetPurpose id desc))) ->
  let one := create_channel net name desc priv us w in
  result_of one = Val false /\
  requests_of (trace_of one) =
    [ConversationsCreate name priv; ConversationsSetPurpose id desc] /\
  sleeps_of (trace_of one) = [] /\
  world_of one =
    snd (net (snd (net w (ConversationsCreate name priv)))
             (ConversationsSetPurpose id desc)).
Proof.
  intros (fields & ch & Hok & Hch & Hid) H. cbv zeta.
  destruct (answered_ok_get _ _ Hok) as (ok & Ho & Hget & Ht).
  unfold create_channel, try_except, bind, requests_send, lift.
  destruct (net w (ConversationsCreate name priv)) as [o w1]; simpl in *. subst o.
  runs. rewrite (Hget JNull), Ht. simpl. rewrite Hch. simpl. rewrite Hid. simpl.
  destruct (dict_lookup "ok" fields); clear Hget.
  all: destruct (net w1 (ConversationsSetPurpose id desc)) as [o2 w2]; simpl in *.
  all: inversion H as [|b|fields2 ok2 Hget2 Hok2]; subst; runs; auto.
  all: destruct (dict_lookup "ok" fields2) as [x|]; inversion Hget2; subst;
    runs; try rewrite Hok2; runs;
    destruct (dict_lookup "error" fields2); runs; auto.
Qed.

(** *** The invitation *)

Lemma invite_transport_failure id us joined w :
  py_join us = Val joined ->
  fst (net w (ConversationsInvite id joined)) = None ->
  invite_users_to_channel net id us w =
    (Raise RequestException, [Net (ConversationsInvite id joined)],
     snd (net w (ConversationsInvite id joined))).
Proof.
  intros Hj H. unfold invite_users_to_channel, bind, lift, requests_send.
  rewrite Hj.
  destruct (net w (ConversationsInvite id joined)) as [o w1]; simpl in *.
  subst o. reflexivity.
Qed.

Lemma invite_rejected id us joined w resp :
  py_join us = Val joined ->
  fst (net w (ConversationsInvite id joined)) = Some resp ->
  call_failed (Some resp) ->
  invite_users_to_channel net id us w =
    (Raise PlainException, [Net (ConversationsInvite id joined)],
     snd (net w (ConversationsInvite id joined))).
Proof.
  intros Hj H Hf. unfold invite_users_to_channel, bind, lift, requests_send.
  rewrite Hj.
  destruct (net w (ConversationsInvite id joined)) as [o w1]; simpl in *.
  subst o.
  inversion Hf as [|b|fields ok Hget Hok]; subst; [reflexivity|].
  unfold try_except, raise_for_status, response_json, ret. simpl in *.
  destruct (dict_lookup "ok" fields) as [x|]; inversion Hget; subst;
    simpl; try rewrite Hok; reflexivity.
Qed.

Lemma invite_accepted id us joined w fields :
  py_join us = Val joined ->
  answered_ok (fst (net w (ConversationsInvite id joined))) fields ->
  invite_users_to_channel net id us w =
    (Val (JObj fields), [Net (ConversationsInvite id joined)],
     snd (net w (ConversationsInvite id joined))).
Proof.
  intros Hj (ok & Ho & Hl & Ht).
  unfold invite_users_to_channel, bind, lift, requests_send.
  rewrite Hj.
  destruct (net w (ConversationsInvite id joined)) as [o w1]; simpl in *.
  subst o.
  unfold try_except, raise_for_status, response_json, ret. simpl.
  rewrite Hl. simpl. rewrite Ht. reflexivity.
Qed.

(** *** Created and described *)

(** Once the create and setPurpose calls have succeeded, the outcome of
    [create_channel] is decided by the invitation: a
    [RequestException] out of it is caught by [create_channel]'s own
    handler, anything else escapes. *)
Lemma create_channel_configured name desc priv us w id fields2 :
  created (fst (net w (ConversationsCreate name priv))) id ->
  answered_ok
    (fst (net (snd (net w (ConversationsCreate name priv)))
              (ConversationsSetPurpose id desc))) fields2 ->
  let w2 := snd (net (snd (net w (ConversationsCreate name priv)))
                     (ConversationsSetPurpose id desc)) in
  let head := [Net (ConversationsCreate name priv);
               Net (ConversationsSetPurpose id desc);
               Log (LogCreated name)] in
  create_channel net name desc priv us w =
    match invite_users_to_channel net id us w2 with
    | (Val _, t, w3) => (Val true, head ++ t, w3)
    | (Raise e, t, w3) =>
        if is_request_exception e
        then (Val false, head ++ t ++ [Log (LogCreateException name)], w3)
        else (Raise e, head ++ t, w3)
    end.
Proof.
  intros (fields & ch & Hok & Hch & Hid) Hok2. cbv zeta.
  destruct (answered_ok_get _ _ Hok) as (ok & Ho & Hget & Ht).
  destruct (answered_ok_get _ _ Hok2) as (ok2 & Ho2 & Hget2 & Ht2).
  unfold create_channel, try_except, bind, requests_send, lift.
  destruct (net w (ConversationsCreate name priv)) as [o w1]; simpl in *. subst o.
  simpl. rewrite (Hget JNull), Ht. simpl. rewrite Hch. simpl. rewrite Hid. simpl.
  destruct (net w1 (ConversationsSetPurpose id desc)) as [o2 w2]; simpl in *. subst o2.
  clear Hget. destruct (dict_lookup "ok" fields).
  all: simpl; rewrite (Hget2 JNull), Ht2; simpl.
  all: destruct (dict_lookup "ok" fields2); clear Hget2.
  all: destruct (invite_users_to_channel net id us w2) as [[[v|e] t] w3]; simpl;
    [|destruct e; simpl]; rewrite ?app_nil_r; reflexivity.
Qed.

(** ** The batch *)

(** One turn of the second loop. *)
Lemma create_all_head ul us c rest name desc priv w :
  py_getitem ul "users" = Val us ->
  entry_name c = Val name ->
  entry_description c = Val desc ->
  entry_is_private c = Val priv ->
  create_all net ul (c :: rest) w =
    match create_channel net name desc priv us w with
    | (Val true, t, w1) =>
        (result_of (create_all net ul rest w1),
         t ++ Sleep 1 :: trace_of (create_all net ul rest w1),
         world_of (create_all net ul rest w1))
    | (Val false, t, w1) => (Val ReturnedEarly, t ++ [Log (LogAbort name)], w1)
    | (Raise e, t, w1) => (Raise e, t, w1)
    end.
Proof.
  unfold entry_name, entry_description, entry_is_private.
  intros Hu Hn Hd Hp. simpl. unfold bind, lift.
  rewrite Hn. simpl. rewrite Hd. simpl. rewrite Hp. simpl. rewrite Hu. simpl.
  destruct (create_channel net name desc priv us w) as [[[[|]|e] t] w1]; simpl;
    try reflexivity.
  unfold time_sleep, emit.
  destruct (create_all net ul rest w1) as [[r t2] w2]. reflexivity.
Qed.

(** A prefix that was provisioned in full, followed by more channels. *)
Lemma create_all_app ul pre l : forall w t1 w1,
  create_all net ul pre w = (Val FellOffEnd, t1, w1) ->
  create_all net ul (pre ++ l) w =
    (result_of (create_all net ul l w1),
     t1 ++ trace_of (create_all net ul l w1),
     world_of (create_all net ul l w1)).
Proof.
  induction pre as [|c pre IH]; intros w t1 w1 H.
  - simpl in H. inversion H; subst. simpl.
    destruct (create_all net ul l w1) as [[r t] w2]. reflexivity.
  - simpl in *. unfold bind, lift in *.
    destruct (py_get c "name" JNull) as [name|]; simpl in *; [|discriminate].
    destruct (py_get c "description" (JStr "")) as [desc|]; simpl in *; [|discriminate].
    destruct (py_get c "is_private" (JBool false)) as [priv|]; simpl in *; [|discriminate].
    destruct (py_getitem ul "users") as [us|]; simpl in *; [|discriminate].
    destruct (create_channel net name desc priv us w) as [[[[|]|e] t] w0]; simpl in *;
      try discriminate.
    unfold time_sleep, emit in *.
    destruct (create_all net ul pre w0) as [[r t2] w2] eqn:Hpre.
    inversion H; subst.
    rewrite (IH _ _ _ Hpre). runs.
    rewrite <- !app_assoc. reflexivity.
Qed.

(** A channel that is not provisioned ends the batch: its own requests
    are the last ones. *)
Lemma create_all_stops ul us pre c rest name desc priv w t1 w1 :
  py_getitem ul "users" = Val us ->
  create_all net ul pre w = (Val FellOffEnd, t1, w1) ->
  entry_name c = Val name ->
  entry_description c = Val desc ->
  entry_is_private c = Val priv ->
  let one := create_channel net name desc priv us w1 in
  let run := create_all net ul (pre ++ c :: rest) w in
  result_of one <> Val true ->
  result_of run =
    match result_of one with
    | Val _ => Val ReturnedEarly
    | Raise e => Raise e
    end /\
  requests_of (trace_of run) = requests_of t1 ++ requests_of (trace_of one) /\
  sleeps_of (trace_of run) = sleeps_of t1 ++ sleeps_of (trace_of one) /\
  world_of run = world_of one.
Proof.
  intros Hu Hpre Hn Hd Hp one run Hne. subst one run.
  rewrite (create_all_app _ _ _ _ _ _ Hpre).
  rewrite (create_all_head ul us c rest name desc priv w1 Hu Hn Hd Hp).
  destruct (create_channel net name desc priv us w1) as [[[[|]|e] t] w2]; runs.
  - congruence.
  - rewrite !requests_of_app, !sleeps_of_app. simpl. rewrite !app_nil_r. auto.
  - rewrite !requests_of_app, !sleeps_of_app. auto.
Qed.

(** C4: when the create call of a channel fails (no response, an error
    status, or [ok] false), [create_channel] returns [False] having sent
    the create call only, and the batch returns there: after the channels
    provisioned before it, that create call is the last request, so no
    setPurpose or invite call is made for the channel and no later
    channel is touched. *)
Theorem create_failure_stops_batch ul us pre c rest name desc priv w t1 w1 :
  py_getitem ul "users" = Val us ->
  create_all net ul pre w = (Val FellOffEnd, t1, w1) ->
  entry_name c = Val name ->
  entry_description c = Val desc ->
  entry_is_private c = Val priv ->
  call_failed (fst (net w1 (ConversationsCreate name priv))) ->
  let one := create_channel net name desc priv us w1 in
  let run := create_all net ul (pre ++ c :: rest) w in
  result_of one = Val false /\
  requests_of (trace_of one) = [ConversationsCreate name priv] /\
  result_of run = Val ReturnedEarly /\
  requests_of (trace_of run) = requests_of t1 ++ [ConversationsCreate name priv].
Proof.
  intros Hu Hpre Hn Hd Hp Hf one run.
  destruct (create_channel_create_failed name desc priv us w1 Hf) as (Hr & Hq & _ & _).
  destruct (create_all_stops ul us pre c rest name desc priv w t1 w1 Hu Hpre Hn Hd Hp)
    as (Hrun & Hreq & _ & _).
  { rewrite Hr. discriminate. }
  subst one run. rewrite Hr in Hrun. rewrite Hq in Hreq. auto.
Qed.

(** C5: when the create call succeeds and the setPurpose call fails,
    [create_channel] returns [False] and the batch returns there; the
    channel's requests are exactly the create and the setPurpose call, in
    that order, and they are the last of the run: no invite call, no
    later channel, and no request that would undo the creation. *)
Theorem purpose_failure_stops_batch ul us pre c rest name desc priv id w t1 w1 :
  py_getitem ul "users" = Val us ->
  create_all net ul pre w = (Val FellOffEnd, t1, w1) ->
  entry_name c = Val name ->
  entry_description c = Val desc ->
  entry_is_private c = Val priv ->
  created (fst (net w1 (ConversationsCreate name priv))) id ->
  call_failed
    (fst (net (snd (net w1 (ConversationsCreate name priv)))
              (ConversationsSetPurpose id desc))) ->
  let one := create_channel net name desc priv us w1 in
  let run := create_all net ul (pre ++ c :: rest) w in
  result_of one = Val false /\
  requests_of (trace_of one) =
    [ConversationsCreate name priv; ConversationsSetPurpose id desc] /\
  result_of run = Val ReturnedEarly /\
  requests_of (trace_of run) =
    requests_of t1 ++ [ConversationsCreate name priv; ConversationsSetPurpose id desc].
Proof.
  intros Hu Hpre Hn Hd Hp Hc Hf one run.
  destruct (create_channel_purpose_failed name desc priv us w1 id Hc Hf)
    as (Hr & Hq & _ & _).
  destruct (create_all_stops ul us pre c rest name desc priv w t1 w1 Hu Hpre Hn Hd Hp)
    as (Hrun & Hreq & _ & _).
  { rewrite Hr. discriminate. }
  subst one run. rewrite Hr in Hrun. rewrite Hq in Hreq. auto.
Qed.

(** C6, as the code has it: when the create and setPurpose calls succeed
    and the invite call fails, the channel's requests are create,
    setPurpose, invite and nothing follows them in the run.  How the
    failure surfaces depends on its kind: a response with an error status
    or with [ok] false makes [invite_users_to_channel] raise a plain
    [Exception] that escapes [create_channel] and the batch; a request that
    got no response raises a [RequestException], which the handler of
    [create_channel] catches, so [create_channel] returns [False] and the
    batch returns. *)
Theorem invite_failure_stops_batch
    ul us joined pre c rest name desc priv id fields2 w t1 w1 :
  py_getitem ul "users" = Val us ->
  py_join us = Val joined ->
  create_all net ul pre w = (Val FellOffEnd, t1, w1) ->
  entry_name c = Val name ->
  entry_description c = Val desc ->
  entry_is_private c = Val priv ->
  let w2 := snd (net w1 (ConversationsCreate name priv)) in
  let w3 := snd (net w2 (ConversationsSetPurpose id desc)) in
  created (fst (net w1 (ConversationsCreate name priv))) id ->
  answered_ok (fst (net w2 (ConversationsSetPurpose id desc))) fields2 ->
  call_failed (fst (net w3 (ConversationsInvite id joined))) ->
  let one := create_channel net name desc priv us w1 in
  let run := create_all net ul (pre ++ c :: rest) w in
  let sent := [ConversationsCreate name priv;
               ConversationsSetPurpose id desc;
               ConversationsInvite id joined] in
  requests_of (trace_of one) = sent /\
  requests_of (trace_of run) = requests_of t1 ++ sent /\
  match fst (net w3 (ConversationsInvite id joined)) with
  | Some _ => result_of one = Raise PlainException /\ result_of run = Raise PlainException
  | None => result_of one = Val false /\ result_of run = Val ReturnedEarly
  end.
Proof.
  intros Hu Hj Hpre Hn Hd Hp w2 w3 Hc Hok Hf one run sent.
  pose proof (create_channel_configured name desc priv us w1 id fields2 Hc Hok) as Heq.
  cbv zeta in Heq. fold w2 in Heq. fold w3 in Heq.
  assert (Hone : requests_of (trace_of one) = sent /\
                 result_of one =
                   match fst (net w3 (ConversationsInvite id joined)) with
                   | Some _ => Raise PlainException
                   | None => Val false
                   end).
  { subst one. rewrite Heq.
    destruct (fst (net w3 (ConversationsInvite id joined))) as [resp|] eqn:Hresp.
    - rewrite (invite_rejected id us joined w3 resp Hj Hresp Hf). runs. auto.
    - rewrite (invite_transport_failure id us joined w3 Hj Hresp). runs. auto. }
  destruct Hone as (Hq & Hr).
  destruct (create_all_stops ul us pre c rest name desc priv w t1 w1 Hu Hpre Hn Hd Hp)
    as (Hrun & Hreq & _ & _).
  { fold one. rewrite Hr. destruct (fst (net w3 _)); discriminate. }
  fold one in Hrun, Hreq. fold run in Hrun, Hreq.
  rewrite Hq in Hreq. rewrite Hr in Hrun.
  repeat split; try assumption.
  destruct (fst (net w3 (ConversationsInvite id joined))); auto.
Qed.

(** ** The whole batch *)

Lemma count_kind_app k t1 t2 :
  count_kind k (t1 ++ t2) = count_kind k t1 + count_kind k t2.
Proof.
  unfold count_kind. rewrite requests_of_app, filter_app, length_app. reflexivity.
Qed.

Lemma provisioned_blocks_count users l blocks :
  Forall2 (provisioned_block users) l blocks ->
  count_kind KCreate (List.concat blocks) = List.length l /\
  count_kind KSetPurpose (List.concat blocks) = List.length l /\
  count_kind KInvite (List.concat blocks) = List.length l /\
  count_kind KList (List.concat blocks) = 0 /\
  sleeps_of (List.concat blocks) = repeat 1%Z (List.length l).
Proof.
  induction 1 as [|c b l blocks Hb _ IH]; simpl; [auto|].
  destruct Hb as (name & desc & priv & id & _ & _ & _ & ->).
  destruct IH as (H1 & H2 & H3 & H4 & H5).
  rewrite !count_kind_app, sleeps_of_app, H1, H2, H3, H4, H5. auto.
Qed.

Section Cooperative.

(** An API that keeps succeeding: from a [good] world every request is
    answered with a success and leads to a [good] world. *)
Variable good : World -> Prop.
Hypothesis good_step : forall w r,
  good w -> call_succeeds r (fst (net w r)) /\ good (snd (net w r)).

Variables (ul us : json) (joined : string).
Hypothesis users_loaded : py_getitem ul "users" = Val us.
Hypothesis users_joined : py_join us = Val joined.

Lemma create_all_provisions l : forall w,
  good w ->
  Forall (fun c => exists k, named c k) l ->
  exists blocks,
    Forall2 (provisioned_block joined) l blocks /\
    result_of (create_all net ul l w) = Val FellOffEnd /\
    trace_of (create_all net ul l w) = List.concat blocks.
Proof.
  induction l as [|c l IH]; intros w Hg Hl.
  - exists []. simpl. auto.
  - inversion Hl as [|? ? (k & fields & v & -> & Hname & _) Hl']; subst.
    destruct (entry_description (JObj fields)) as [desc|] eqn:Hd;
      [|simpl in Hd; destruct (dict_lookup "description" fields); discriminate].
    destruct (entry_is_private (JObj fields)) as [priv|] eqn:Hp;
      [|simpl in Hp; destruct (dict_lookup "is_private" fields); discriminate].
    assert (Hn : entry_name (JObj fields) = Val v) by (simpl; rewrite Hname; reflexivity).
    destruct (good_step w (ConversationsCreate v priv) Hg) as ((id & Hc) & Hg1).
    set (w1 := snd (net w (ConversationsCreate v priv))) in *.
    destruct (good_step w1 (ConversationsSetPurpose id desc) Hg1) as ((f2 & Hok2) & Hg2).
    set (w2 := snd (net w1 (ConversationsSetPurpose id desc))) in *.
    destruct (good_step w2 (ConversationsInvite id joined) Hg2) as ((f3 & Hok3) & Hg3).
    set (w3 := snd (net w2 (ConversationsInvite id joined))) in *.
    destruct (IH w3 Hg3 Hl') as (blocks & Hb & Hr & Ht).
    eexists (_ :: blocks). split; [|split].
    + constructor; [|exact Hb].
      exists v, desc, priv, id. repeat split; try eassumption; reflexivity.
    + rewrite (create_all_head ul us _ l v desc priv w users_loaded Hn Hd Hp).
      rewrite (create_channel_configured v desc priv us w id f2 Hc Hok2).
      fold w1. fold w2.
      rewrite (invite_accepted id us joined w2 f3 users_joined Hok3).
      fold w3. runs. exact Hr.
    + rewrite (create_all_head ul us _ l v desc priv w users_loaded Hn Hd Hp).
      rewrite (create_channel_configured v desc priv us w id f2 Hc Hok2).
      fold w1. fold w2.
      rewrite (invite_accepted id us joined w2 f3 users_joined Hok3).
      fold w3. runs. rewrite Ht. reflexivity.
Qed.

End Cooperative.


Lemma existing_names_world w :
  world_of (existing_names net w) = snd (net w ConversationsList).
Proof.
  unfold existing_names, get_existing_channels, try_except, bind, requests_send, lift.
  destruct (net w ConversationsList) as [[[st b]|] w1]; simpl; [|reflexivity].
  destruct st; simpl; [|reflexivity].
  destruct b; simpl; try reflexivity.
  destruct (dict_lookup "ok" fields) as [ok|]; simpl.
  - destruct (truthy ok); simpl.
    + destruct (dict_lookup "channels" fields); reflexivity.
    + destruct (dict_lookup "error" fields), (dict_lookup "needed" fields); reflexivity.
  - destruct (dict_lookup "error" fields), (dict_lookup "needed" fields); reflexivity.
Qed.

Lemma existing_names_answered w fields :
  answered_ok (fst (net w ConversationsList)) fields ->
  trace_of (existing_names net w) = [Net ConversationsList].
Proof.
  intros (ok & Ho & Hl & Ht).
  unfold existing_names, get_existing_channels, try_except, bind, requests_send, lift.
  destruct (net w ConversationsList) as [o w1]; simpl in *. subst o. simpl.
  rewrite Hl. simpl. rewrite Ht. simpl.
  destruct (dict_lookup "channels" fields); reflexivity.
Qed.

(** A batch that passes the duplicate check goes on to the second loop
    from the world the listing left. *)
Lemma run_batch_passed l ul w E :
  result_of (existing_names net w) = Val E ->
  Forall (fun c => exists k, named c k /\ ~ In k E) l ->
  let rest := create_all net ul l (world_of (existing_names net w)) in
  run_batch net (JArr l) ul w =
    (result_of rest, trace_of (existing_names net w) ++ trace_of rest, world_of rest).
Proof.
  intros HE Hl. cbv zeta. unfold run_batch, bind, lift.
  destruct (existing_names net w) as [[r0 t0] w0]; runs. subst r0.
  rewrite (duplicate_check_pass E l w0 Hl). simpl.
  destruct (create_all net ul l w0) as [[r t] w1]. reflexivity.
Qed.

(** C7: with well-formed entries, no desired name among the existing
    ones, a list of invitees that can be joined, and an API that answers
    every request with a success, [main] runs the whole batch:
    after the listing, the trace is one block per desired channel, in input
    order, each block being create, setPurpose, the info log line, invite
    and a pause of one second; that makes as many create, setPurpose and
    invite calls as there are channels, and [main] reaches its end. *)
Theorem full_batch_in_order (good : World -> Prop) l ul us joined w E :
  (forall w r, good w -> call_succeeds r (fst (net w r)) /\ good (snd (net w r))) ->
  good w ->
  result_of (existing_names net w) = Val E ->
  Forall (fun c => exists k, named c k /\ ~ In k E) l ->
  py_getitem ul "users" = Val us ->
  py_join us = Val joined ->
  let run := main net (FileJson (JArr l)) (FileJson ul) w in
  exists blocks,
    Forall2 (provisioned_block joined) l blocks /\
    trace_of run = Net ConversationsList :: List.concat blocks /\
    result_of run = Val FellOffEnd /\
    count_kind KCreate (trace_of run) = List.length l /\
    count_kind KSetPurpose (trace_of run) = List.length l /\
    count_kind KInvite (trace_of run) = List.length l /\
    sleeps_of (trace_of run) = repeat 1%Z (List.length l).
Proof.
  intros Hstep Hg HE Hl Hu Hj run. subst run.
  rewrite main_loaded, (run_batch_passed l ul w E HE Hl). cbv zeta.
  destruct (Hstep w ConversationsList Hg) as ((fields & Hok) & Hg0).
  rewrite (existing_names_answered w fields Hok), existing_names_world.
  destruct (create_all_provisions good Hstep ul us joined Hu Hj l _ Hg0) as (blocks & Hb & Hr & Ht).
  { eapply Forall_impl; [|exact Hl]. intros c (k & Hn & _). exists k. exact Hn. }
  exists blocks. runs. rewrite Ht.
  destruct (provisioned_blocks_count joined l blocks Hb) as (H1 & H2 & H3 & _ & H5).
  repeat split; assumption.
Qed.

(** ** What the requests carry *)

(** The create call is the first event of [create_channel]. *)
Lemma create_channel_first name desc priv us w :
  exists tl,
    trace_of (create_channel net name desc priv us w) =
      Net (ConversationsCreate name priv) :: tl.
Proof.
  unfold create_channel, try_except.
  set (k := fun response : response => _).
  set (h := bind (logging (LogCreateException name)) _).
  unfold bind at 1. unfold requests_send.
  destruct (net w (ConversationsCreate name priv)) as [[resp|] w1]; simpl.
  - destruct (k resp w1) as [[[a|e] t] w2]; simpl.
    + eexists; reflexivity.
    + destruct (is_request_exception e); [destruct (h w2) as [[r t2] w3]|];
        eexists; reflexivity.
  - destruct (h w1) as [[r t2] w3]. eexists; reflexivity.
Qed.

(** After a successful create call, the setPurpose call comes next, on
    the returned id and with the description it was given. *)
Lemma create_channel_second name desc priv us w id :
  created (fst (net w (ConversationsCreate name priv))) id ->
  exists tl,
    trace_of (create_channel net name desc priv us w) =
      Net (ConversationsCreate name priv)
      :: Net (ConversationsSetPurpose id desc) :: tl.
Proof.
  intros (fields & ch & (ok & Ho & Hl & Ht) & Hch & Hid).
  unfold create_channel, try_except.
  set (h := bind (logging (LogCreateException name)) _).
  unfold bind at 1. unfold requests_send at 1.
  destruct (net w (ConversationsCreate name priv)) as [o w1]; simpl in Ho. subst o.
  unfold bind at 1. simpl. unfold bind at 1. simpl.
  unfold bind at 1, lift at 1. rewrite Hl, Ht. simpl.
  unfold bind at 1, lift at 1. rewrite Hch.
  unfold bind at 1, lift at 1. rewrite Hid.
  set (k := fun topic_response : response => _).
  unfold bind at 1. unfold requests_send.
  destruct (net w1 (ConversationsSetPurpose id desc)) as [[resp|] w2]; simpl.
  - destruct (k resp w2) as [[[a|e] t] w3]; simpl.
    + eexists; reflexivity.
    + destruct (is_request_exception e); [destruct (h w3) as [[r t2] w4]|];
        eexists; reflexivity.
  - destruct (h w2) as [[r t2] w3]. eexists; reflexivity.
Qed.

(** The first request of a turn of the second loop is the create call
    for its channel. *)
Lemma create_all_first ul us c rest name desc priv w :
  py_getitem ul "users" = Val us ->
  entry_name c = Val name ->
  entry_description c = Val desc ->
  entry_is_private c = Val priv ->
  exists tl,
    trace_of (create_all net ul (c :: rest) w) =
      trace_of (create_channel net name desc priv us w) ++ tl.
Proof.
  intros Hu Hn Hd Hp.
  rewrite (create_all_head ul us c rest name desc priv w Hu Hn Hd Hp).
  destruct (create_channel net name desc priv us w) as [[[[|]|e] t] w1]; runs.
  - eexists; reflexivity.
  - eexists; reflexivity.
  - exists []. rewrite app_nil_r. reflexivity.
Qed.

(** ** The run, piece by piece *)

(** Where the requests and the result of a loaded batch come from. *)
Lemma run_batch_anatomy cl ul w :
  let w0 := world_of (existing_names net w) in
  requests_of (trace_of (run_batch net cl ul w)) =
    ConversationsList ::
    match result_of (existing_names net w), py_iter cl with
    | Val E, Val l =>
        match result_of (duplicate_check E l w0) with
        | Val false => requests_of (trace_of (create_all net ul l w0))
        | _ => []
        end
    | _, _ => []
    end /\
  result_of (run_batch net cl ul w) =
    match result_of (existing_names net w), py_iter cl with
    | Val E, Val l =>
        match result_of (duplicate_check E l w0) with
        | Val false => result_of (create_all net ul l w0)
        | Val true => Val ReturnedEarly
        | Raise e => Raise e
        end
    | Val _, Raise e => Raise e
    | Raise e, _ => Raise e
    end.
Proof.
  cbv zeta.
  pose proof (existing_names_requests w) as Hreq.
  unfold run_batch, bind, lift.
  destruct (existing_names net w) as [[[E|e] t0] w0]; runs; [|auto].
  destruct (py_iter cl) as [l|e]; runs;
    [|rewrite requests_of_app, Hreq; auto].
  destruct (duplicate_check_silent E l w0) as (Hw & Hq & _).
  destruct (duplicate_check E l w0) as [[[stop|e] t1] w1]; runs.
  - subst w1. destruct stop; simpl.
    + rewrite !requests_of_app, Hreq, Hq. auto.
    + destruct (create_all net ul l w0) as [[r t2] w2]; runs.
      rewrite !requests_of_app, Hreq, Hq. auto.
  - rewrite !requests_of_app, Hreq, Hq. auto.
Qed.

(** C1: when an entry of the desired list carries a name that is in the
    set of existing channel names, the listing is the only request of the
    run: no create, setPurpose or invite call is sent for any entry, and
    the run does not complete the batch. *)
Theorem collision_halts_before_creation l ul w E c k :
  result_of (existing_names net w) = Val E ->
  In c l -> named c k -> In k E ->
  let run := main net (FileJson (JArr l)) (FileJson ul) w in
  requests_of (trace_of run) = [ConversationsList] /\
  count_kind KCreate (trace_of run) = 0 /\
  count_kind KSetPurpose (trace_of run) = 0 /\
  count_kind KInvite (trace_of run) = 0 /\
  result_of run <> Val FellOffEnd.
Proof.
  intros HE Hin Hn Hk run. subst run. rewrite main_loaded.
  destruct (run_batch_anatomy (JArr l) ul w) as (Hreq & Hres).
  cbv zeta in Hreq, Hres. rewrite HE in Hreq, Hres.
  simpl py_iter in Hreq, Hres. cbv iota in Hreq, Hres.
  assert (Hstop : result_of (duplicate_check E l (world_of (existing_names net w)))
                  <> Val false).
  { apply (duplicate_check_blocked E l _ c Hin).
    intros v k' Hv Hh. destruct (named_getitem c k Hn) as (v0 & Hv0 & Hh0).
    congruence. }
  destruct (result_of (duplicate_check E l (world_of (existing_names net w))))
    as [[|]|e]; try congruence;
    unfold count_kind; rewrite Hreq, Hres; repeat split; discriminate || reflexivity.
Qed.

(** Without a [users] key in the invitee document, the second loop sends
    nothing, and its first turn raises [KeyError]. *)
Lemma create_all_without_users ufields l w :
  dict_lookup "users" ufields = None ->
  requests_of (trace_of (create_all net (JObj ufields) l w)) = [] /\
  (forall fields rest, l = JObj fields :: rest ->
     result_of (create_all net (JObj ufields) l w) = Raise KeyError).
Proof.
  intros Hu. destruct l as [|c rest]; simpl.
  - split; [reflexivity|]. intros ? ? H. discriminate.
  - unfold bind, lift.
    destruct (py_get c "name" JNull) eqn:Hn; simpl;
      [|split; [reflexivity|intros ? ? H; inversion H; subst; simpl in Hn;
                destruct (dict_lookup "name" fields); discriminate]].
    destruct (py_get c "description" (JStr "")) eqn:Hd; simpl;
      [|split; [reflexivity|intros ? ? H; inversion H; subst; simpl in Hd;
                destruct (dict_lookup "description" fields); discriminate]].
    destruct (py_get c "is_private" (JBool false)) eqn:Hp; simpl;
      [|split; [reflexivity|intros ? ? H; inversion H; subst; simpl in Hp;
                destruct (dict_lookup "is_private" fields); discriminate]].
    rewrite Hu. simpl. auto.
Qed.

Lemma named_entry c k :
  named c k ->
  exists name desc priv,
    entry_name c = Val name /\
    entry_description c = Val desc /\
    entry_is_private c = Val priv.
Proof.
  intros (fields & v & -> & Hl & _).
  unfold entry_name, entry_description, entry_is_private. simpl. rewrite Hl.
  destruct (dict_lookup "description" fields), (dict_lookup "is_private" fields);
    do 3 eexists; repeat split; reflexivity.
Qed.

(** C2, as the code has it: the duplicate check compares the desired
    names with the existing remote names and with nothing else.  When no
    desired name exists remotely the check passes, whether or not two
    entries of the list share a name, and the run goes on to send the
    create call of the first entry. *)
Theorem siblings_are_not_compared c rest ul us w E :
  result_of (existing_names net w) = Val E ->
  Forall (fun c => exists k, named c k /\ ~ In k E) (c :: rest) ->
  py_getitem ul "users" = Val us ->
  let run := main net (FileJson (JArr (c :: rest))) (FileJson ul) w in
  exists name priv tl,
    entry_name c = Val name /\
    entry_is_private c = Val priv /\
    requests_of (trace_of run) =
      ConversationsList :: ConversationsCreate name priv :: tl.
Proof.
  intros HE Hl Hu run. subst run. rewrite main_loaded.
  destruct (run_batch_anatomy (JArr (c :: rest)) ul w) as (Hreq & _).
  cbv zeta in Hreq. rewrite HE in Hreq. simpl py_iter in Hreq. cbv iota in Hreq.
  rewrite (duplicate_check_pass E (c :: rest) _ Hl) in Hreq.
  change (result_of (Val false, [], world_of (existing_names net w)))
    with (@Val bool false) in Hreq. cbv iota in Hreq.
  inversion Hl as [|? ? (k & Hn & _) _]; subst.
  destruct (named_entry c k Hn) as (name & desc & priv & Hname & Hd & Hp).
  destruct (create_all_first ul us c rest name desc priv
              (world_of (existing_names net w)) Hu Hname Hd Hp) as (tl & Ht).
  destruct (create_channel_first name desc priv us (world_of (existing_names net w)))
    as (tl' & Ht').
  exists name, priv, (requests_of (tl' ++ tl)).
  repeat split; try assumption.
  rewrite Hreq, Ht, Ht'. simpl. reflexivity.
Qed.

(** C8: an entry without [is_private] is created with [is_private] false
    (public); an entry without [description] gets the empty string as its
    purpose; and nothing is made up for an entry without [name]: with such
    an entry in the list no create call is sent at all and the run does not
    complete. *)
Theorem absent_fields_defaults :
  (forall fields name rest ul us w,
     dict_lookup "name" fields = Some name ->
     dict_lookup "is_private" fields = None ->
     py_getitem ul "users" = Val us ->
     exists tl,
       requests_of (trace_of (create_all net ul (JObj fields :: rest) w)) =
         ConversationsCreate name (JBool false) :: tl) /\
  (forall fields name priv id rest ul us w,
     dict_lookup "name" fields = Some name ->
     dict_lookup "description" fields = None ->
     py_get (JObj fields) "is_private" (JBool false) = Val priv ->
     py_getitem ul "users" = Val us ->
     created (fst (net w (ConversationsCreate name priv))) id ->
     exists tl,
       requests_of (trace_of (create_all net ul (JObj fields :: rest) w)) =
         ConversationsCreate name priv
         :: ConversationsSetPurpose id (JStr "") :: tl) /\
  (forall fields l ul w,
     In (JObj fields) l ->
     dict_lookup "name" fields = None ->
     let run := main net (FileJson (JArr l)) (FileJson ul) w in
     requests_of (trace_of run) = [ConversationsList] /\
     count_kind KCreate (trace_of run) = 0 /\
     result_of run <> Val FellOffEnd).
Proof.
  split; [|split].
  - intros fields name rest ul us w Hn Hp Hu.
    destruct (dict_lookup "description" fields) as [desc|] eqn:Hd.
    + destruct (create_all_first ul us (JObj fields) rest name desc (JBool false) w Hu)
        as (tl & Ht); try (simpl; rewrite ?Hn, ?Hd, ?Hp; reflexivity).
      destruct (create_channel_first name desc (JBool false) us w) as (tl' & Ht').
      exists (requests_of (tl' ++ tl)). rewrite Ht, Ht'. reflexivity.
    + destruct (create_all_first ul us (JObj fields) rest name (JStr "") (JBool false) w Hu)
        as (tl & Ht); try (simpl; rewrite ?Hn, ?Hd, ?Hp; reflexivity).
      destruct (create_channel_first name (JStr "") (JBool false) us w) as (tl' & Ht').
      exists (requests_of (tl' ++ tl)). rewrite Ht, Ht'. reflexivity.
  - intros fields name priv id rest ul us w Hn Hd Hp Hu Hc.
    destruct (create_all_first ul us (JObj fields) rest name (JStr "") priv w Hu)
      as (tl & Ht); try (simpl; rewrite ?Hn, ?Hd; reflexivity); [exact Hp|].
    destruct (create_channel_second name (JStr "") priv us w id Hc) as (tl' & Ht').
    exists (requests_of (tl' ++ tl)). rewrite Ht, Ht'. reflexivity.
  - intros fields l ul w Hin Hn run. subst run. rewrite main_loaded.
    destruct (run_batch_anatomy (JArr l) ul w) as (Hreq & Hres).
    cbv zeta in Hreq, Hres. simpl py_iter in Hreq, Hres. cbv iota in Hreq, Hres.
    assert (Hblocked : forall E (w0 : World), result_of (duplicate_check E l w0) <> Val false).
    { intros E w0. apply (duplicate_check_blocked E l w0 (JObj fields) Hin).
      intros v k Hv. simpl in Hv. rewrite Hn in Hv. discriminate. }
    destruct (result_of (existing_names net w)) as [E|e].
    + specialize (Hblocked E (world_of (existing_names net w))).
      destruct (result_of (duplicate_check E l (world_of (existing_names net w))))
        as [[|]|e]; try congruence.
      * unfold count_kind. rewrite Hreq, Hres. repeat split; discriminate || reflexivity.
      * unfold count_kind. rewrite Hreq, Hres. repeat split; discriminate || reflexivity.
    + unfold count_kind. rewrite Hreq, Hres. repeat split; discriminate || reflexivity.
Qed.

(** C10: an invitee document that is a JSON object without the [users]
    key loads like any other.  The run sends the listing request and
    nothing else; when the list of channels is not empty and passes the
    duplicate check, the run ends in the [KeyError] raised while the first
    channel's arguments are evaluated, after the listing request. *)
Theorem missing_users_key_fails_late cl ufields w :
  dict_lookup "users" ufields = None ->
  let run := main net (FileJson cl) (FileJson (JObj ufields)) w in
  requests_of (trace_of run) = [ConversationsList] /\
  forall E c rest,
    result_of (existing_names net w) = Val E ->
    cl = JArr (c :: rest) ->
    Forall (fun c => exists k, named c k /\ ~ In k E) (c :: rest) ->
    result_of run = Raise KeyError.
Proof.
  intros Hu run. subst run. rewrite main_loaded.
  destruct (run_batch_anatomy cl (JObj ufields) w) as (Hreq & Hres).
  cbv zeta in Hreq, Hres. split.
  - rewrite Hreq. f_equal.
    destruct (result_of (existing_names net w)) as [E|e]; [|reflexivity].
    destruct (py_iter cl) as [l|e]; [|reflexivity].
    destruct (result_of (duplicate_check E l (world_of (existing_names net w))))
      as [[|]|e]; try reflexivity.
    apply (create_all_without_users ufields l _ Hu).
  - intros E c rest HE -> Hl. rewrite Hres, HE. simpl py_iter. cbv iota.
    rewrite (duplicate_check_pass E (c :: rest) _ Hl).
    change (result_of (Val false, [], world_of (existing_names net w)))
      with (@Val bool false). cbv iota.
    inversion Hl as [|? ? (k & (fields & v & -> & _ & _) & _) _]; subst.
    eapply (create_all_without_users ufields _ _ Hu). reflexivity.
Qed.

End Properties.

(** * The properties at work

    Each property with a premise is applied here to a concrete run against
    a scripted API, and the statements the code does not meet are refuted
    on a concrete run. *)

(** [proj-a] exists remotely and is the second of two desired channels:
    nothing is created, not even [proj-b]. *)
Lemma collision_halts_before_creation_witness :
  let run := main scripted
               (FileJson (JArr [entry "proj-b"; entry "proj-a"]))
               (FileJson demo_users)
               [listing ["general"; "proj-a"]] in
  requests_of (trace_of run) = [ConversationsList] /\
  count_kind KCreate (trace_of run) = 0 /\
  count_kind KSetPurpose (trace_of run) = 0 /\
  count_kind KInvite (trace_of run) = 0 /\
  result_of run <> Val FellOffEnd.
Proof.
  apply (collision_halts_before_creation scripted
           [entry "proj-b"; entry "proj-a"] demo_users
           [listing ["general"; "proj-a"]]
           [KStr "general"; KStr "proj-a"] (entry "proj-a") (KStr "proj-a")).
  - reflexivity.
  - simpl. auto.
  - exists [("name", JStr "proj-a")], (JStr "proj-a"). repeat split; reflexivity.
  - simpl. auto.
Defined.

(** C2 refuted: [proj-x] is listed twice and does not exist remotely,
    yet the run creates it, describes it, invites to it, and sends a
    second create call for the same name. *)
Lemma sibling_collision_counterexample :
  let run := main scripted
               (FileJson (JArr [entry "proj-x"; entry "proj-x"]))
               (FileJson demo_users)
               [listing ["general"]; created_response "C1"; ok_response [];
                ok_response []; error_response "name_taken"] in
  result_of (existing_names scripted [listing ["general"]]) = Val [KStr "general"] /\
  requests_of (trace_of run) =
    [ConversationsList;
     ConversationsCreate (JStr "proj-x") (JBool false);
     ConversationsSetPurpose (JStr "C1") (JStr "");
     ConversationsInvite (JStr "C1") "U1,U2";
     ConversationsCreate (JStr "proj-x") (JBool false)] /\
  count_kind KCreate (trace_of run) <> 0.
Proof.
  vm_compute. repeat split; discriminate || reflexivity.
Qed.

Lemma siblings_are_not_compared_witness :
  let run := main scripted
               (FileJson (JArr [entry "proj-x"; entry "proj-x"]))
               (FileJson demo_users)
               [listing ["general"]; created_response "C1"; ok_response [];
                ok_response []; error_response "name_taken"] in
  exists name priv tl,
    entry_name (entry "proj-x") = Val name /\
    entry_is_private (entry "proj-x") = Val priv /\
    requests_of (trace_of run) =
      ConversationsList :: ConversationsCreate name priv :: tl.
Proof.
  apply (siblings_are_not_compared scripted (entry "proj-x") [entry "proj-x"]
           demo_users (JArr [JStr "U1"; JStr "U2"]) _ [KStr "general"]).
  - reflexivity.
  - repeat constructor; exists (KStr "proj-x"); split;
      try (exists [("name", JStr "proj-x")], (JStr "proj-x"); repeat split; reflexivity);
      simpl; intros [H|[]]; discriminate.
  - reflexivity.
Defined.

(** A listing refused for a missing scope reads like an empty workspace. *)
Lemma read_failure_returns_empty_witness :
  result_of (get_existing_channels scripted [error_response "missing_scope"]) =
    Val (JArr []) /\
  result_of (get_existing_channels scripted [listing []]) =
    result_of (get_existing_channels scripted [error_response "missing_scope"]).
Proof.
  assert (Hf : call_failed
                 (fst (scripted [error_response "missing_scope"] ConversationsList))).
  { apply (failed_not_ok _ (JBool false)); reflexivity. }
  destruct (read_failure_returns_empty scripted [error_response "missing_scope"] Hf)
    as (H1 & H2).
  split; [exact H1|].
  apply (H2 [listing []] [("ok", JBool true); ("channels", JArr [])]).
  - exists (JBool true). repeat split; reflexivity.
  - reflexivity.
Defined.

(** [proj-a] is provisioned, the create call for [proj-b] is refused:
    nothing more is sent, [proj-c] is never tried. *)
Lemma create_failure_stops_batch_witness :
  let w := [created_response "C1"; ok_response []; ok_response [];
            error_response "name_taken"; created_response "C3"] in
  let one := create_channel scripted (JStr "proj-b") (JStr "") (JBool false)
               (JArr [JStr "U1"; JStr "U2"])
               [error_response "name_taken"; created_response "C3"] in
  let run := create_all scripted demo_users
               ([entry "proj-a"] ++ entry "proj-b" :: [entry "proj-c"]) w in
  result_of one = Val false /\
  requests_of (trace_of one) = [ConversationsCreate (JStr "proj-b") (JBool false)] /\
  result_of run = Val ReturnedEarly /\
  requests_of (trace_of run) =
    requests_of (demo_block "proj-a" "C1")
    ++ [ConversationsCreate (JStr "proj-b") (JBool false)].
Proof.
  apply (create_failure_stops_batch scripted demo_users (JArr [JStr "U1"; JStr "U2"])
           [entry "proj-a"] (entry "proj-b") [entry "proj-c"]
           (JStr "proj-b") (JStr "") (JBool false) _
           (demo_block "proj-a" "C1")
           [error_response "name_taken"; created_response "C3"]).
  - reflexivity.
  - reflexivity.
  - reflexivity.
  - reflexivity.
  - reflexivity.
  - apply (failed_not_ok _ (JBool false)); reflexivity.
Defined.

(** [proj-b] is created but its description is refused: no invitation,
    no [proj-c], and nothing undoes the creation. *)
Lemma purpose_failure_stops_batch_witness :
  let w := [created_response "C1"; ok_response []; ok_response [];
            created_response "C2"; error_response "too_long";
            created_response "C3"] in
  let one := create_channel scripted (JStr "proj-b") (JStr "") (JBool false)
               (JArr [JStr "U1"; JStr "U2"])
               [created_response "C2"; error_response "too_long";
                created_response "C3"] in
  let run := create_all scripted demo_users
               ([entry "proj-a"] ++ entry "proj-b" :: [entry "proj-c"]) w in
  result_of one = Val false /\
  requests_of (trace_of one) =
    [ConversationsCreate (JStr "proj-b") (JBool false);
     ConversationsSetPurpose (JStr "C2") (JStr "")] /\
  result_of run = Val ReturnedEarly /\
  requests_of (trace_of run) =
    requests_of (demo_block "proj-a" "C1")
    ++ [ConversationsCreate (JStr "proj-b") (JBool false);
        ConversationsSetPurpose (JStr "C2") (JStr "")].
Proof.
  apply (purpose_failure_stops_batch scripted demo_users (JArr [JStr "U1"; JStr "U2"])
           [entry "proj-a"] (entry "proj-b") [entry "proj-c"]
           (JStr "proj-b") (JStr "") (JBool false) (JStr "C2") _
           (demo_block "proj-a" "C1")
           [created_response "C2"; error_response "too_long"; created_response "C3"]).
  - reflexivity.
  - reflexivity.
  - reflexivity.
  - reflexivity.
  - reflexivity.
  - exists [("ok", JBool true); ("channel", JObj [("id", JStr "C2")])],
      (JObj [("id", JStr "C2")]).
    split; [exists (JBool true)|]; repeat split; reflexivity.
  - apply (failed_not_ok _ (JBool false)); reflexivity.
Defined.

(** C6 refuted: the invite request for [proj-a] gets no response.  No
    exception leaves [create_channel] or [main]: the first returns [False],
    the second logs and returns. *)
Lemma invite_transport_counterexample :
  let one := create_channel scripted (JStr "proj-a") (JStr "") (JBool false)
               (JArr [JStr "U1"; JStr "U2"])
               [created_response "C1"; ok_response []; None] in
  let run := main scripted
               (FileJson (JArr [entry "proj-a"; entry "proj-b"]))
               (FileJson demo_users)
               [listing []; created_response "C1"; ok_response []; None] in
  requests_of (trace_of one) =
    [ConversationsCreate (JStr "proj-a") (JBool false);
     ConversationsSetPurpose (JStr "C1") (JStr "");
     ConversationsInvite (JStr "C1") "U1,U2"] /\
  result_of one = Val false /\
  result_of run = Val ReturnedEarly /\
  ~ (exists e, result_of one = Raise e) /\
  ~ (exists e, result_of run = Raise e).
Proof.
  vm_compute. repeat split; try reflexivity; intros (e & H); discriminate.
Qed.

(** The invitation to [proj-b] is refused with [ok] false: the exception
    escapes, [proj-c] is never tried. *)
Lemma invite_failure_stops_batch_witness :
  let w := [created_response "C1"; ok_response []; ok_response [];
            created_response "C2"; ok_response []; error_response "cant_invite";
            created_response "C3"] in
  let one := create_channel scripted (JStr "proj-b") (JStr "") (JBool false)
               (JArr [JStr "U1"; JStr "U2"])
               [created_response "C2"; ok_response []; error_response "cant_invite";
                created_response "C3"] in
  let run := create_all scripted demo_users
               ([entry "proj-a"] ++ entry "proj-b" :: [entry "proj-c"]) w in
  let sent := [ConversationsCreate (JStr "proj-b") (JBool false);
               ConversationsSetPurpose (JStr "C2") (JStr "");
               ConversationsInvite (JStr "C2") "U1,U2"] in
  requests_of (trace_of one) = sent /\
  requests_of (trace_of run) = requests_of (demo_block "proj-a" "C1") ++ sent /\
  result_of one = Raise PlainException /\
  result_of run = Raise PlainException.
Proof.
  apply (invite_failure_stops_batch scripted demo_users (JArr [JStr "U1"; JStr "U2"])
           "U1,U2" [entry "proj-a"] (entry "proj-b") [entry "proj-c"]
           (JStr "proj-b") (JStr "") (JBool false) (JStr "C2") [("ok", JBool true)] _
           (demo_block "proj-a" "C1")
           [created_response "C2"; ok_response []; error_response "cant_invite";
            created_response "C3"]).
  - reflexivity.
  - reflexivity.
  - reflexivity.
  - reflexivity.
  - reflexivity.
  - reflexivity.
  - exists [("ok", JBool true); ("channel", JObj [("id", JStr "C2")])],
      (JObj [("id", JStr "C2")]).
    split; [exists (JBool true)|]; repeat split; reflexivity.
  - exists (JBool true). repeat split; reflexivity.
  - apply (failed_not_ok _ (JBool false)); reflexivity.
Defined.

Lemma friendly_succeeds (w : unit) (r : request) :
  call_succeeds r (fst (friendly w r)).
Proof.
  destruct r; simpl.
  - exists [("ok", JBool true);
            ("channels", JArr [JObj [("id", JStr "C-general"); ("name", JStr "general")]])].
    exists (JBool true). repeat split; reflexivity.
  - exists (JStr "C1"),
      [("ok", JBool true); ("channel", JObj [("id", JStr "C1")])],
      (JObj [("id", JStr "C1")]).
    split; [exists (JBool true)|]; repeat split; reflexivity.
  - exists [("ok", JBool true)], (JBool true). repeat split; reflexivity.
  - exists [("ok", JBool true)], (JBool true). repeat split; reflexivity.
Qed.

(** The scenario of the specification: [proj-a] and [proj-b], neither
    existing, two invitees. *)
Lemma full_batch_in_order_witness :
  let l := [entry "proj-a"; entry "proj-b"] in
  let run := main friendly (FileJson (JArr l)) (FileJson demo_users) tt in
  exists blocks,
    Forall2 (provisioned_block "U1,U2") l blocks /\
    trace_of run = Net ConversationsList :: List.concat blocks /\
    result_of run = Val FellOffEnd /\
    count_kind KCreate (trace_of run) = 2 /\
    count_kind KSetPurpose (trace_of run) = 2 /\
    count_kind KInvite (trace_of run) = 2 /\
    sleeps_of (trace_of run) = [1; 1]%Z.
Proof.
  apply (full_batch_in_order friendly (fun _ => True)
           [entry "proj-a"; entry "proj-b"] demo_users
           (JArr [JStr "U1"; JStr "U2"]) "U1,U2" tt [KStr "general"]).
  - intros w r _. split; [apply friendly_succeeds | exact I].
  - exact I.
  - reflexivity.
  - repeat constructor.
    + exists (KStr "proj-a"). split.
      * exists [("name", JStr "proj-a")], (JStr "proj-a"). repeat split; reflexivity.
      * simpl. intros [H|[]]. discriminate.
    + exists (KStr "proj-b"). split.
      * exists [("name", JStr "proj-b")], (JStr "proj-b"). repeat split; reflexivity.
      * simpl. intros [H|[]]. discriminate.
  - reflexivity.
  - reflexivity.
Defined.

(** An entry with a name only; an entry with no name. *)
Lemma absent_fields_defaults_witness :
  (exists tl,
     requests_of (trace_of (create_all scripted demo_users [entry "proj-a"]
                              [created_response "C1"])) =
       ConversationsCreate (JStr "proj-a") (JBool false) :: tl) /\
  (exists tl,
     requests_of (trace_of (create_all scripted demo_users [entry "proj-a"]
                              [created_response "C1"])) =
       ConversationsCreate (JStr "proj-a") (JBool false)
       :: ConversationsSetPurpose (JStr "C1") (JStr "") :: tl) /\
  (let run := main scripted
                (FileJson (JArr [entry "proj-a"; JObj [("description", JStr "d")]]))
                (FileJson demo_users) [listing []; created_response "C1"] in
   requests_of (trace_of run) = [ConversationsList] /\
   count_kind KCreate (trace_of run) = 0 /\
   result_of run <> Val FellOffEnd).
Proof.
  destruct (absent_fields_defaults scripted) as (H1 & H2 & H3).
  split; [|split].
  - apply (H1 [("name", JStr "proj-a")] (JStr "proj-a") [] demo_users
              (JArr [JStr "U1"; JStr "U2"])); reflexivity.
  - apply (H2 [("name", JStr "proj-a")] (JStr "proj-a") (JBool false) (JStr "C1") []
              demo_users (JArr [JStr "U1"; JStr "U2"])); try reflexivity.
    exists [("ok", JBool true); ("channel", JObj [("id", JStr "C1")])],
      (JObj [("id", JStr "C1")]).
    split; [exists (JBool true)|]; repeat split; reflexivity.
  - apply (H3 [("description", JStr "d")]); [simpl; auto | reflexivity].
Defined.

(** A channel list that is not valid JSON. *)
Lemma config_failure_before_network_witness :
  let w := [listing []; created_response "C1"] in
  let run := main scripted FileMalformed (FileJson demo_users) w in
  world_of run = w /\
  requests_of (trace_of run) = [] /\
  result_of run <> Val FellOffEnd.
Proof.
  apply (config_failure_before_network scripted FileMalformed (FileJson demo_users)).
  left. exact I.
Defined.

(** An invitee document spelled [members] instead of [users]. *)
Lemma missing_users_key_fails_late_witness :
  let run := main scripted
               (FileJson (JArr [entry "proj-a"]))
               (FileJson (JObj [("members", JArr [JStr "U1"])]))
               [listing ["general"]; created_response "C1"] in
  requests_of (trace_of run) = [ConversationsList] /\
  result_of run = Raise KeyError.
Proof.
  destruct (missing_users_key_fails_late scripted (JArr [entry "proj-a"])
              [("members", JArr [JStr "U1"])]
              [listing ["general"]; created_response "C1"] eq_refl) as (H1 & H2).
  split; [exact H1|].
  apply (H2 [KStr "general"] (entry "proj-a") []).
  - reflexivity.
  - reflexivity.
  - repeat constructor. exists (KStr "proj-a"). split.
    + exists [("name", JStr "proj-a")], (JStr "proj-a"). repeat split; reflexivity.
    + simpl. intros [H|[]]. discriminate.
Defined.

(** * Further properties of the script *)

Section Further.

Context {World : Type}.
Variable net : World -> request -> option response * World.

(** Case analysis on a scrutinee that holds no further [match]. *)
Ltac has_match x :=
  match x with
  | context [match _ with _ => _ end] => idtac
  end.

Ltac break_innermost :=
  match goal with
  | |- context [match ?x with _ => _ end] =>
      tryif has_match x then fail else (destruct x eqn:?; simpl)
  end.

Ltac open_run :=
  unfold create_channel, invite_users_to_channel, get_existing_channels,
    try_except, bind, lift, requests_send, raise_for_status, response_json,
    ret, raise, logging, time_sleep, emit, is_request_exception, is_exception,
    result_of, trace_of, world_of.

(** ** Shapes of a response *)

Lemma response_cases o :
  call_failed o \/ (exists fields, answered_ok o fields) \/ not_object o.
Proof.
  destruct o as [[[|] b]|]; [|left; constructor|left; constructor].
  destruct b as [| | | | |fields];
    try (right; right; eexists; split; [reflexivity|intros ? H; discriminate]).
  destruct (dict_lookup "ok" fields) as [ok|] eqn:Hl.
  - destruct (truthy ok) eqn:Ht.
    + right; left. exists fields, ok. auto.
    + left. apply (failed_not_ok fields ok); [simpl; rewrite Hl; reflexivity|exact Ht].
  - left. apply (failed_not_ok fields JNull); [simpl; rewrite Hl; reflexivity|reflexivity].
Qed.

Lemma py_join_type_error v e : py_join v = Raise e -> e = TypeError.
Proof.
  unfold py_join.
  assert (H : forall items, join_strs items = Raise e -> e = TypeError).
  { induction items as [|x items IH]; simpl; [discriminate|].
    destruct x; try (intros H; inversion H; reflexivity).
    destruct items as [|y items]; [discriminate|].
    destruct (join_strs (y :: items)); [discriminate|].
    intros H. inversion H; subst. apply IH. reflexivity. }
  destruct v; simpl; try (intros H0; inversion H0; reflexivity); apply H.
Qed.

(** ** The listing *)



(** X2: a successful listing returns the [channels] field as it is, or the
    empty list when the field is absent, after one request and without a
    log line. *)
Theorem listing_success_value w fields :
  answered_ok (fst (net w ConversationsList)) fields ->
  get_existing_channels net w =
    (Val match dict_lookup "channels" fields with
         | Some channels => channels
         | None => JArr []
         end,
     [Net ConversationsList],
     snd (net w ConversationsList)).
Proof.
  intros (ok & Ho & Hl & Ht). open_run.
  destruct (net w ConversationsList) as [o w1]; simpl in *. subst o. simpl.
  rewrite Hl. simpl. rewrite Ht. simpl.
  destruct (dict_lookup "channels" fields); reflexivity.
Qed.

Lemma get_existing_channels_degraded w :
  call_failed (fst (net w ConversationsList)) ->
  result_of (get_existing_channels net w) = Val (JArr []).
Proof.
  intros H. open_run.
  destruct (net w ConversationsList) as [o w1]; simpl in H.
  inversion H as [|b|fields ok Hget Hok]; subst; simpl; try reflexivity.
  simpl in Hget.
  destruct (dict_lookup "ok" fields) as [x|]; inversion Hget; subst;
    simpl; try rewrite Hok; simpl;
    destruct (dict_lookup "error" fields), (dict_lookup "needed" fields); reflexivity.
Qed.

(** X3: a failed listing disables the duplicate check.  The set of existing
    names is then empty, so every well-formed desired list passes, and the
    run goes on to send the create call of its first entry, whether or not
    that channel exists remotely. *)
Theorem failed_listing_lets_creation_proceed c rest ul us w :
  call_failed (fst (net w ConversationsList)) ->
  Forall (fun c => exists k, named c k) (c :: rest) ->
  py_getitem ul "users" = Val us ->
  let run := main net (FileJson (JArr (c :: rest))) (FileJson ul) w in
  result_of (existing_names net w) = Val [] /\
  exists name priv tl,
    entry_name c = Val name /\
    entry_is_private c = Val priv /\
    requests_of (trace_of run) =
      ConversationsList :: ConversationsCreate name priv :: tl.
Proof.
  intros Hf Hl Hu run.
  assert (HE : result_of (existing_names net w) = Val []).
  { pose proof (get_existing_channels_degraded w Hf) as H.
    unfold existing_names, bind, lift.
    destruct (get_existing_channels net w) as [[r t] w0].
    unfold result_of in *. simpl in *. subst r. reflexivity. }
  split; [exact HE|]. subst run. rewrite main_loaded.
  assert (Hl' : Forall (fun c => exists k, named c k /\ ~ In k []) (c :: rest)).
  { eapply Forall_impl; [|exact Hl]. intros x (k & Hn). exists k. split; [exact Hn|].
    intros []. }
  rewrite (run_batch_passed net (c :: rest) ul w [] HE Hl'). cbv zeta.
  inversion Hl as [|? ? (k & Hn) _]; subst.
  destruct (named_entry c k Hn) as (name & desc & priv & Hname & Hd & Hp).
  destruct (create_all_first net ul us c rest name desc priv
              (world_of (existing_names net w)) Hu Hname Hd Hp) as (tl & Ht).
  destruct (create_channel_first net name desc priv us (world_of (existing_names net w)))
    as (tl' & Ht').
  pose proof (existing_names_requests net w) as Hq.
  exists name, priv, (requests_of (tl' ++ tl)).
  repeat split; try assumption.
  unfold trace_of at 1. cbn [fst snd]. rewrite requests_of_app, Hq, Ht, Ht'. reflexivity.
Qed.

(** ** One channel, every outcome *)

(** Whatever the API answers, [create_channel] sends a prefix of create,
    setPurpose, invite, the latter two on one and the same id; it never
    sleeps; it returns [True] only after all three; and what it raises is
    a misread value or the plain [Exception] of the invitation. *)
Lemma create_channel_outcomes name desc priv us w :
  exists id joined n,
    requests_of (trace_of (create_channel net name desc priv us w)) =
      firstn n [ConversationsCreate name priv;
                ConversationsSetPurpose id desc;
                ConversationsInvite id joined] /\
    1 <= n <= 3 /\
    sleeps_of (trace_of (create_channel net name desc priv us w)) = [] /\
    match result_of (create_channel net name desc priv us w) with
    | Val true => n = 3
    | Val false => True
    | Raise e => escapes e
    end.
Proof.
  open_run. unfold py_get, py_getitem, escapes, misread. simpl.
  repeat break_innermost.
  all: try match goal with
           | H : py_join _ = Raise _ |- _ => apply py_join_type_error in H; try discriminate
           end.
  all: try (exists JNull, "", 1; simpl; repeat split; auto; lia).
  all: try (eexists _, "", 2; simpl; repeat split; auto; lia).
  all: try (eexists _, _, 3; simpl; repeat split; auto; lia).
Qed.


(** X5: the requests of one [create_channel] call are create, then
    setPurpose, then invite, cut off after the first one that does not
    succeed; setPurpose and invite address the same channel id. *)
Theorem create_channel_request_order name desc priv us w :
  exists id joined,
    let all := [ConversationsCreate name priv;
                ConversationsSetPurpose id desc;
                ConversationsInvite id joined] in
    requests_of (trace_of (create_channel net name desc priv us w)) = firstn 1 all \/
    requests_of (trace_of (create_channel net name desc priv us w)) = firstn 2 all \/
    requests_of (trace_of (create_channel net name desc priv us w)) = all.
Proof.
  destruct (create_channel_outcomes name desc priv us w)
    as (id & joined & n & Hq & Hn & _ & _).
  exists id, joined. cbv zeta.
  destruct n as [|[|[|[|n]]]]; try lia; auto.
Qed.

(** X6: [True] is an honest answer.  When [create_channel] returns [True],
    the create call succeeded and named an id, the setPurpose call on that
    id succeeded, the invitee ids could be joined, and the invite call on
    that id succeeded; the trace is these three requests with the info log
    line before the invitation. *)
Theorem true_means_fully_provisioned name desc priv us w :
  result_of (create_channel net name desc priv us w) = Val true ->
  exists id joined fields2 fields3,
    let w1 := snd (net w (ConversationsCreate name priv)) in
    let w2 := snd (net w1 (ConversationsSetPurpose id desc)) in
    created (fst (net w (ConversationsCreate name priv))) id /\
    answered_ok (fst (net w1 (ConversationsSetPurpose id desc))) fields2 /\
    py_join us = Val joined /\
    answered_ok (fst (net w2 (ConversationsInvite id joined))) fields3 /\
    trace_of (create_channel net name desc priv us w) =
      [Net (ConversationsCreate name priv);
       Net (ConversationsSetPurpose id desc);
       Log (LogCreated name);
       Net (ConversationsInvite id joined)].
Proof.
  open_run. unfold py_get, py_getitem. simpl.
  repeat break_innermost; try discriminate.
  all: intros _.
  all: repeat match goal with
         | r : response |- _ => destruct r; simpl in *
         end; subst.
  all: repeat match goal with
         | H : negb (truthy _) = false |- _ => apply negb_false_iff in H
         end.
  all: repeat match goal with
         | H : (_, _) = (_, _) |- _ => inversion H; clear H; subst
         end.
  all: repeat match goal with
         | H : Val _ = Val _ |- _ => inversion H; clear H; subst
         | H : Some _ = Some _ |- _ => inversion H; clear H; subst
         end.
  all: try discriminate.
  match goal with
  | H2 : net _ (ConversationsSetPurpose ?id _) =
           (Some {| status_ok := true; body := JObj ?f2 |}, _),
    H3 : net _ (ConversationsInvite ?id ?joined) =
           (Some {| status_ok := true; body := JObj ?f3 |}, _),
    H4 : dict_lookup "id" _ = Some ?id |- _ =>
      exists id, joined, f2, f3; rewrite H2; simpl; rewrite H3; simpl;
      repeat split; try reflexivity;
      [ do 2 eexists; split;
        [ eexists; repeat split; eassumption
        | split; [eassumption | simpl; rewrite H4; reflexivity] ]
      | eexists; repeat split; eassumption
      | eexists; repeat split; eassumption ]
  end.
Qed.

(** X7: a create response that says [ok] but names no channel id is not
    handled: reading [data["channel"]["id"]] raises [KeyError] or
    [TypeError], which leaves [create_channel] after the create call and
    before any setPurpose or invite call. *)
Theorem created_without_id_raises name desc priv us w fields :
  answered_ok (fst (net w (ConversationsCreate name priv))) fields ->
  (forall id, ~ created (fst (net w (ConversationsCreate name priv))) id) ->
  exists e,
    (e = KeyError \/ e = TypeError) /\
    create_channel net name desc priv us w =
      (Raise e, [Net (ConversationsCreate name priv)],
       snd (net w (ConversationsCreate name priv))).
Proof.
  intros Hok Hno.
  assert (Hid : forall ch id, dict_lookup "channel" fields = Some ch ->
                              py_getitem ch "id" = Val id -> False).
  { intros ch id Hch Hi. apply (Hno id). exists fields, ch. auto. }
  destruct Hok as (ok & Ho & Hl & Ht).
  open_run.
  destruct (net w (ConversationsCreate name priv)) as [o w1]; simpl in *. subst o. simpl.
  rewrite Hl. simpl. rewrite Ht. simpl.
  destruct (dict_lookup "channel" fields) as [ch|] eqn:Hch; simpl.
  - destruct (py_getitem ch "id") as [id|e] eqn:Hi; [elim (Hid ch id eq_refl Hi)|].
    assert (He : e = KeyError \/ e = TypeError).
    { destruct ch; simpl in Hi; try (inversion Hi; auto).
      destruct (dict_lookup "id" fields0); inversion Hi; auto. }
    exists e. split; [exact He|].
    destruct He as [-> | ->]; reflexivity.
  - exists KeyError. auto.
Qed.

(** X8: invitee ids that cannot be joined (an item that is not a string, or
    a value that cannot be iterated) are found out only after the channel
    has been created and described: [create_channel] then raises
    [TypeError] without sending an invite request. *)
Theorem unjoinable_invitees_raise_late name desc priv us w id fields2 e :
  created (fst (net w (ConversationsCreate name priv))) id ->
  answered_ok
    (fst (net (snd (net w (ConversationsCreate name priv)))
              (ConversationsSetPurpose id desc))) fields2 ->
  py_join us = Raise e ->
  create_channel net name desc priv us w =
    (Raise TypeError,
     [Net (ConversationsCreate name priv);
      Net (ConversationsSetPurpose id desc);
      Log (LogCreated name)],
     snd (net (snd (net w (ConversationsCreate name priv)))
              (ConversationsSetPurpose id desc))).
Proof.
  intros Hc Hok Hj.
  rewrite (create_channel_configured net name desc priv us w id fields2 Hc Hok).
  cbv zeta. unfold invite_users_to_channel, bind, lift. rewrite Hj.
  apply py_join_type_error in Hj. subst e. reflexivity.
Qed.

(** ** The invitation, every outcome *)

(** X9: once the invitee ids are joined, [invite_users_to_channel] sends
    one request and ends in one of three ways: no response raises
    [RequestException]; a response with a good status and a JSON object
    with a truthy [ok] is returned as it is; any other response (error
    status, [ok] absent or falsy, a body that is not an object) raises the
    plain [Exception]. *)
Theorem invitation_outcomes id us joined w :
  py_join us = Val joined ->
  let o := fst (net w (ConversationsInvite id joined)) in
  let run := invite_users_to_channel net id us w in
  trace_of run = [Net (ConversationsInvite id joined)] /\
  world_of run = snd (net w (ConversationsInvite id joined)) /\
  match result_of run with
  | Val v => exists fields, v = JObj fields /\ answered_ok o fields
  | Raise e =>
      (o = None /\ e = RequestException) \/
      (o <> None /\ e = PlainException /\ forall fields, ~ answered_ok o fields)
  end.
Proof.
  intros Hj o run. subst o run.
  destruct (response_cases (fst (net w (ConversationsInvite id joined))))
    as [Hf|[(fields & Hok)|(b & Hb & Hn)]].
  - destruct (fst (net w (ConversationsInvite id joined))) as [resp|] eqn:Ho.
    + rewrite (invite_rejected net id us joined w resp Hj Ho Hf).
      unfold trace_of, world_of, result_of. simpl. repeat split.
      right. repeat split; [discriminate|].
      intros fields (ok & Hresp & Hl & Ht).
      inversion Hresp; subst. inversion Hf as [| |f ok' Hget Hok']; subst.
      simpl in Hget. rewrite Hl in Hget. inversion Hget; subst. congruence.
    + rewrite (invite_transport_failure net id us joined w Hj Ho).
      unfold trace_of, world_of, result_of. simpl. auto.
  - rewrite (invite_accepted net id us joined w fields Hj Hok).
    unfold trace_of, world_of, result_of. simpl. repeat split. eauto.
  - unfold invite_users_to_channel, bind, lift, requests_send. rewrite Hj.
    destruct (net w (ConversationsInvite id joined)) as [o w1]; simpl in *. subst o.
    unfold trace_of, world_of, result_of, try_except. simpl.
    assert (Hr : py_get b "ok" (JBool false) = Raise AttributeError).
    { destruct b; try reflexivity. elim (Hn fields). reflexivity. }
    rewrite Hr. simpl. repeat split.
    right. repeat split; [discriminate|].
    intros fields (ok & Hresp & _). inversion Hresp. elim (Hn fields). assumption.
Qed.

(** X10: the [users] field of the invite request lists the invitee ids in
    their order, separated by commas; with no invitee the request is still
    sent, with an empty [users] string. *)
Theorem invite_payload_is_comma_joined id (ids : list string) w :
  trace_of (invite_users_to_channel net id (JArr (map JStr ids)) w) =
    [Net (ConversationsInvite id (String.concat "," ids))].
Proof.
  assert (Hj : py_join (JArr (map JStr ids)) = Val (String.concat "," ids)).
  { unfold py_join. simpl. induction ids as [|s ids IH]; [reflexivity|].
    destruct ids as [|s' ids]; [reflexivity|].
    change (join_strs (map JStr (s :: s' :: ids)))
      with (match join_strs (map JStr (s' :: ids)) with
            | Val t => Val (s ++ "," ++ t)%string
            | Raise e => Raise e
            end).
    rewrite IH. reflexivity. }
  unfold invite_users_to_channel, bind, lift, requests_send. rewrite Hj.
  destruct (net w (ConversationsInvite id (String.concat "," ids))) as [[resp|] w1];
    [|reflexivity].
  unfold trace_of. simpl.
  destruct (try_except _ _ _ w1) as [[r t] w2] eqn:Ht.
  unfold try_except, bind, raise_for_status, response_json, ret, raise, lift in Ht.
  revert Ht. simpl. repeat break_innermost; intros Ht; inversion Ht; reflexivity.
Qed.

(** X11: a refused create call leaves a full diagnostic: the error code, the
    permissions the API says are needed, and the whole response, with
    ["Unknown error"] and ["Unknown permissions"] standing in for absent
    fields; then [False]. *)
Theorem refused_create_is_logged name desc priv us w fields ok :
  fst (net w (ConversationsCreate name priv)) = Some (Response true (JObj fields)) ->
  py_get (JObj fields) "ok" JNull = Val ok ->
  truthy ok = false ->
  create_channel net name desc priv us w =
    (Val false,
     [Net (ConversationsCreate name priv);
      Log (LogCreateError name
             match dict_lookup "error" fields with
             | Some code => code
             | None => JStr "Unknown error"
             end);
      Log (LogCreateNeeded name
             match dict_lookup "needed" fields with
             | Some needed => needed
             | None => JStr "Unknown permissions"
             end);
      Log (LogCreateData name (JObj fields))],
     snd (net w (ConversationsCreate name priv))).
Proof.
  intros Ho Hget Ht. open_run.
  destruct (net w (ConversationsCreate name priv)) as [o w1]; simpl in *. subst o. simpl.
  destruct (dict_lookup "ok" fields) as [x|]; inversion Hget; subst;
    simpl; try rewrite Ht; simpl;
    destruct (dict_lookup "error" fields), (dict_lookup "needed" fields); reflexivity.
Qed.

(** ** The second loop *)

(** X12: the second loop stops for good.  Once a list of channels does not
    run to its end (a [False] from [create_channel], or an exception),
    whatever is listed after it changes nothing: not the result, not the
    trace, not the world. *)
Theorem create_all_stops_for_good ul l1 l2 : forall w,
  result_of (create_all net ul l1 w) <> Val FellOffEnd ->
  create_all net ul (l1 ++ l2) w = create_all net ul l1 w.
Proof.
  induction l1 as [|c l1 IH]; intros w H.
  - elim H. reflexivity.
  - simpl in *. unfold bind, lift in *.
    destruct (py_get c "name" JNull) as [name|]; simpl in *; [|reflexivity].
    destruct (py_get c "description" (JStr "")) as [desc|]; simpl in *; [|reflexivity].
    destruct (py_get c "is_private" (JBool false)) as [priv|]; simpl in *; [|reflexivity].
    destruct (py_getitem ul "users") as [us|]; simpl in *; [|reflexivity].
    destruct (create_channel net name desc priv us w) as [[[[|]|e] t] w0]; simpl in *;
      try reflexivity.
    unfold time_sleep, emit in *.
    rewrite IH; [reflexivity|].
    destruct (create_all net ul l1 w0) as [[r t2] w2].
    unfold result_of in *. simpl in *. exact H.
Qed.

Lemma py_get_raise v k d e : py_get v k d = Raise e -> misread e.
Proof.
  unfold misread. destruct v as [| | | | |fields]; simpl; intros H; inversion H; auto.
  destruct (dict_lookup k fields); discriminate.
Qed.

Lemma py_getitem_raise v k e : py_getitem v k = Raise e -> misread e.
Proof.
  unfold misread. destruct v as [| | | | |fields]; simpl; intros H; inversion H; auto.
  destruct (dict_lookup k fields); inversion H; auto.
Qed.

Lemma count_kind_requests k t rs :
  requests_of t = rs ->
  count_kind k t = List.length (filter (fun r => kind_eqb (kind_of r) k) rs).
Proof.
  intros <-. reflexivity.
Qed.

(** The discipline of the second loop, by induction on the list. *)
Lemma create_all_discipline ul l : forall w,
  let t := trace_of (create_all net ul l w) in
  count_kind KList t = 0 /\
  count_kind KInvite t <= count_kind KSetPurpose t /\
  count_kind KSetPurpose t <= count_kind KCreate t /\
  count_kind KCreate t <= List.length l /\
  List.length (sleeps_of t) <= count_kind KInvite t /\
  Forall (fun s => s = 1%Z) (sleeps_of t) /\
  match result_of (create_all net ul l w) with
  | Val _ => True
  | Raise e => escapes e
  end.
Proof.
  induction l as [|c l IH]; intros w; cbv zeta.
  - unfold trace_of, result_of. simpl. repeat split; auto.
  - assert (Hnone : forall e, misread e ->
              count_kind KList [] = 0 /\
              count_kind KInvite [] <= count_kind KSetPurpose [] /\
              count_kind KSetPurpose [] <= count_kind KCreate [] /\
              count_kind KCreate [] <= List.length (c :: l) /\
              List.length (sleeps_of []) <= count_kind KInvite [] /\
              Forall (fun s => s = 1%Z) (sleeps_of []) /\ escapes e).
    { intros e He. unfold count_kind, escapes. simpl. repeat split; auto; lia. }
    simpl create_all. unfold bind, lift.
    destruct (py_get c "name" JNull) as [name|e] eqn:Hn;
      [|apply Hnone; exact (py_get_raise _ _ _ _ Hn)].
    destruct (py_get c "description" (JStr "")) as [desc|e] eqn:Hd;
      [|apply Hnone; exact (py_get_raise _ _ _ _ Hd)].
    destruct (py_get c "is_private" (JBool false)) as [priv|e] eqn:Hp;
      [|apply Hnone; exact (py_get_raise _ _ _ _ Hp)].
    destruct (py_getitem ul "users") as [us|e] eqn:Hu;
      [|apply Hnone; exact (py_getitem_raise _ _ _ Hu)].
    destruct (create_channel_outcomes name desc priv us w)
      as (id & joined & n & Hq & Hrange & Hs & Hr).
    destruct (create_channel net name desc priv us w) as [[r t] w1].
    unfold trace_of, result_of in Hq, Hs, Hr. simpl in Hq, Hs, Hr.
    assert (Hcounts :
              count_kind KList t = 0 /\
              count_kind KInvite t <= count_kind KSetPurpose t /\
              count_kind KSetPurpose t <= count_kind KCreate t /\
              count_kind KCreate t = 1 /\
              (n = 3 -> count_kind KInvite t = 1)).
    { rewrite !(count_kind_requests _ t _ Hq).
      destruct n as [|[|[|[|n]]]]; try lia; simpl; repeat split; auto; lia. }
    destruct Hcounts as (H1 & H2 & H3 & H4 & H5).
    destruct r as [[|]|e]; simpl.
    + specialize (IH w1). cbv zeta in IH. unfold time_sleep, emit.
      destruct (create_all net ul l w1) as [[r2 t2] w2].
      unfold trace_of, result_of in *. simpl in *.
      destruct IH as (I1 & I2 & I3 & I4 & I5 & I6 & I7).
      change (t ++ Sleep 1 :: t2) with (t ++ [Sleep 1] ++ t2).
      rewrite !count_kind_app, !sleeps_of_app, Hs. simpl.
      rewrite (H5 Hr), H1, H4.
      change (count_kind KList [Sleep 1]) with 0.
      change (count_kind KInvite [Sleep 1]) with 0.
      change (count_kind KSetPurpose [Sleep 1]) with 0.
      change (count_kind KCreate [Sleep 1]) with 0.
      repeat split; auto; lia.
    + unfold trace_of, result_of. simpl.
      rewrite !count_kind_app, !sleeps_of_app, Hs. simpl.
      change (count_kind KList [Log (LogAbort name)]) with 0.
      change (count_kind KInvite [Log (LogAbort name)]) with 0.
      change (count_kind KSetPurpose [Log (LogAbort name)]) with 0.
      change (count_kind KCreate [Log (LogAbort name)]) with 0.
      repeat split; auto; lia.
    + unfold trace_of, result_of. simpl. rewrite Hs. simpl.
      repeat split; auto; lia.
Qed.

(** ** The run as a whole *)

Lemma existing_names_sleeps w :
  sleeps_of (trace_of (existing_names net w)) = [].
Proof.
  unfold existing_names. open_run. unfold py_get.
  destruct (net w ConversationsList) as [[[st b]|] w1]; simpl; [|reflexivity].
  destruct st; simpl; [|reflexivity].
  destruct b; simpl; try reflexivity.
  repeat break_innermost; reflexivity.
Qed.




(** Where the sleeps of a loaded batch come from. *)
Lemma run_batch_sleeps cl ul w :
  sleeps_of (trace_of (run_batch net cl ul w)) =
    match result_of (existing_names net w), py_iter cl with
    | Val E, Val l =>
        match result_of (duplicate_check E l (world_of (existing_names net w))) with
        | Val false =>
            sleeps_of (trace_of (create_all net ul l (world_of (existing_names net w))))
        | _ => []
        end
    | _, _ => []
    end.
Proof.
  pose proof (existing_names_sleeps w) as Hs.
  unfold run_batch, bind, lift.
  destruct (existing_names net w) as [[[E|e] t0] w0];
    unfold result_of, trace_of, world_of in *; simpl in *; [|exact Hs].
  destruct (py_iter cl) as [l|e]; simpl; [|rewrite app_nil_r; exact Hs].
  destruct (duplicate_check_silent E l w0) as (Hw & _ & Hd).
  destruct (duplicate_check E l w0) as [[[stop|e] t1] w1];
    unfold result_of, trace_of, world_of in *; simpl in *.
  - subst w1. destruct stop; simpl.
    + rewrite !sleeps_of_app, Hs, Hd. reflexivity.
    + destruct (create_all net ul l w0) as [[r t2] w2]; simpl.
      rewrite !sleeps_of_app, Hs, Hd. reflexivity.
  - rewrite !sleeps_of_app, Hs, Hd. reflexivity.
Qed.

(** X13: the request discipline of a run whose files loaded.  The listing
    is the first request and the only one of its kind; there are never
    more invite calls than setPurpose calls, nor more setPurpose calls than
    create calls, nor more create calls than entries in the list; every
    pause lasts one second, and there are no more pauses than invite
    calls. *)
Theorem main_request_discipline cl ul w :
  let t := trace_of (main net (FileJson cl) (FileJson ul) w) in
  (exists tl, requests_of t = ConversationsList :: tl) /\
  count_kind KList t = 1 /\
  count_kind KInvite t <= count_kind KSetPurpose t /\
  count_kind KSetPurpose t <= count_kind KCreate t /\
  (forall l, py_iter cl = Val l -> count_kind KCreate t <= List.length l) /\
  List.length (sleeps_of t) <= count_kind KInvite t /\
  Forall (fun s => s = 1%Z) (sleeps_of t).
Proof.
  cbv zeta. rewrite main_loaded.
  destruct (run_batch_anatomy net cl ul w) as (Hq & _). cbv zeta in Hq.
  pose proof (run_batch_sleeps cl ul w) as Hs.
  rewrite Hs. rewrite !(count_kind_requests _ _ _ Hq).
  split; [eexists; exact Hq|].
  assert (Hnil : 1 = 1 /\ 0 <= 0 /\ 0 <= 0 /\
                 (forall l : list json, py_iter cl = Val l -> 0 <= List.length l) /\
                 0 <= 0 /\ Forall (fun s : Z => s = 1%Z) []).
  { repeat split; auto. intros; lia. }
  destruct (result_of (existing_names net w)) as [E|e]; [|exact Hnil].
  destruct (py_iter cl) as [l|e] eqn:Hl; [|exact Hnil].
  destruct (result_of (duplicate_check E l (world_of (existing_names net w))))
    as [[|]|e]; try exact Hnil.
  destruct (create_all_discipline ul l (world_of (existing_names net w)))
    as (D1 & D2 & D3 & D4 & D5 & D6 & _).
  unfold count_kind in D1, D2, D3, D4, D5. simpl.
  rewrite D1. repeat split; auto.
  intros l' Hl'. inversion Hl'; subst. exact D4.
Qed.


(** X15: with an empty list of channels the run sends the listing request
    and nothing else, and reaches its end whenever the listing could be
    read; the invitee document is never looked at, so any JSON value will
    do for it. *)
Theorem empty_list_only_lists ul w :
  let run := main net (FileJson (JArr [])) (FileJson ul) w in
  requests_of (trace_of run) = [ConversationsList] /\
  sleeps_of (trace_of run) = [] /\
  result_of run =
    match result_of (existing_names net w) with
    | Val _ => Val FellOffEnd
    | Raise e => Raise e
    end.
Proof.
  cbv zeta. rewrite main_loaded.
  destruct (run_batch_anatomy net (JArr []) ul w) as (Hq & Hr). cbv zeta in Hq, Hr.
  rewrite Hq, Hr, run_batch_sleeps. simpl.
  destruct (result_of (existing_names net w)); auto.
Qed.

Lemma duplicate_check_first_hit E pre c rest (w : World) v k :
  Forall (fun c => exists k, named c k /\ ~ In k E) pre ->
  py_getitem c "name" = Val v ->
  hash_key v = Val k ->
  In k E ->
  duplicate_check E (pre ++ c :: rest) w =
    (Val true, [Log (LogDuplicate v); Log LogStars], w).
Proof.
  intros Hpre Hv Hh Hk. induction Hpre as [|c' pre (k' & Hn & Hk') _ IH]; simpl.
  - unfold bind, lift. rewrite Hv. simpl. rewrite Hh. simpl.
    unfold set_mem. destruct (in_dec pykey_eq_dec k E); [reflexivity|contradiction].
  - destruct (named_getitem c' k' Hn) as (v' & Hv' & Hh').
    unfold bind, lift. rewrite Hv'. simpl. rewrite Hh'. simpl.
    apply set_mem_false in Hk'. rewrite Hk'. rewrite IH. reflexivity.
Qed.

(** X16: the duplicate check reports the first collision and nothing after
    it.  When the entries before the first colliding one are well formed,
    the run logs that entry's name and the row of stars once, returns, and
    leaves the world as the listing left it, whatever follows in the
    list. *)
Theorem first_collision_is_reported pre c rest ul w E v k :
  result_of (existing_names net w) = Val E ->
  Forall (fun c => exists k, named c k /\ ~ In k E) pre ->
  py_getitem c "name" = Val v ->
  hash_key v = Val k ->
  In k E ->
  main net (FileJson (JArr (pre ++ c :: rest))) (FileJson ul) w =
    (Val ReturnedEarly,
     trace_of (existing_names net w) ++ [Log (LogDuplicate v); Log LogStars],
     world_of (existing_names net w)).
Proof.
  intros HE Hpre Hv Hh Hk. rewrite main_loaded.
  unfold run_batch, bind, lift.
  destruct (existing_names net w) as [[r0 t0] w0].
  unfold result_of, trace_of, world_of in *. simpl in *. subst r0.
  rewrite (duplicate_check_first_hit E pre c rest w0 v k Hpre Hv Hh Hk).
  reflexivity.
Qed.

Lemma names_of_nameless pre fields rest :
  Forall (fun c => exists k, named c k) pre ->
  dict_lookup "name" fields = None ->
  names_of (pre ++ JObj fields :: rest) = Raise KeyError.
Proof.
  intros Hpre Hn. induction Hpre as [|c pre (k & Hc) _ IH]; simpl.
  - rewrite Hn. reflexivity.
  - destruct (named_getitem c k Hc) as (v & Hv & Hh).
    rewrite Hv, Hh, IH. reflexivity.
Qed.

(** X17: the listing is trusted to name every channel.  When a listed
    channel has no [name], behind well-formed ones, the set comprehension
    raises [KeyError]: the run ends there, after the listing request,
    before the duplicate check and before any creation. *)
Theorem nameless_listed_channel_raises cl ul w fields pre nameless rest :
  answered_ok (fst (net w ConversationsList)) fields ->
  dict_lookup "channels" fields = Some (JArr (pre ++ JObj nameless :: rest)) ->
  Forall (fun c => exists k, named c k) pre ->
  dict_lookup "name" nameless = None ->
  main net (FileJson cl) (FileJson ul) w =
    (Raise KeyError, [Net ConversationsList], snd (net w ConversationsList)).
Proof.
  intros (ok & Ho & Hl & Ht) Hch Hpre Hn. rewrite main_loaded.
  unfold run_batch, existing_names. open_run.
  destruct (net w ConversationsList) as [o w1]; simpl in *. subst o. simpl.
  rewrite Hl. simpl. rewrite Ht. simpl. rewrite Hch. simpl.
  unfold name_set. simpl. rewrite (names_of_nameless pre nameless rest Hpre Hn).
  reflexivity.
Qed.


End Further.

(** * The further properties at work *)

Lemma listing_success_value_witness :
  get_existing_channels scripted [ok_response []] =
    (Val (JArr []), [Net ConversationsList], []).
Proof.
  apply (listing_success_value scripted [ok_response []] [("ok", JBool true)]).
  exists (JBool true). repeat split; reflexivity.
Defined.

(** The listing is refused, so [general], which exists, is created anew. *)
Lemma failed_listing_lets_creation_proceed_witness :
  let run := main scripted (FileJson (JArr [entry "general"])) (FileJson demo_users)
               [error_response "missing_scope"; error_response "name_taken"] in
  result_of (existing_names scripted
               [error_response "missing_scope"; error_response "name_taken"]) = Val [] /\
  exists name priv tl,
    entry_name (entry "general") = Val name /\
    entry_is_private (entry "general") = Val priv /\
    requests_of (trace_of run) =
      ConversationsList :: ConversationsCreate name priv :: tl.
Proof.
  apply (failed_listing_lets_creation_proceed scripted (entry "general") [] demo_users
           (JArr [JStr "U1"; JStr "U2"])).
  - apply (failed_not_ok _ (JBool false)); reflexivity.
  - repeat constructor. exists (KStr "general"), [("name", JStr "general")], (JStr "general").
    repeat split; reflexivity.
  - reflexivity.
Defined.


Lemma true_means_fully_provisioned_witness :
  let w := [created_response "C1"; ok_response []; ok_response []] in
  let name := JStr "proj-a" in
  let one := create_channel scripted name (JStr "") (JBool false)
               (JArr [JStr "U1"; JStr "U2"]) w in
  exists id joined fields2 fields3,
    let w1 := snd (scripted w (ConversationsCreate name (JBool false))) in
    let w2 := snd (scripted w1 (ConversationsSetPurpose id (JStr ""))) in
    created (fst (scripted w (ConversationsCreate name (JBool false)))) id /\
    answered_ok (fst (scripted w1 (ConversationsSetPurpose id (JStr "")))) fields2 /\
    py_join (JArr [JStr "U1"; JStr "U2"]) = Val joined /\
    answered_ok (fst (scripted w2 (ConversationsInvite id joined))) fields3 /\
    trace_of one =
      [Net (ConversationsCreate name (JBool false));
       Net (ConversationsSetPurpose id (JStr ""));
       Log (LogCreated name);
       Net (ConversationsInvite id joined)].
Proof.
  apply (true_means_fully_provisioned scripted (JStr "proj-a") (JStr "") (JBool false)
           (JArr [JStr "U1"; JStr "U2"])
           [created_response "C1"; ok_response []; ok_response []]).
  reflexivity.
Defined.

Lemma created_without_id_raises_witness :
  exists e,
    (e = KeyError \/ e = TypeError) /\
    create_channel scripted (JStr "proj-a") (JStr "") (JBool false) (JArr [])
      [ok_response []; ok_response []] =
      (Raise e, [Net (ConversationsCreate (JStr "proj-a") (JBool false))],
       [ok_response []]).
Proof.
  apply (created_without_id_raises scripted (JStr "proj-a") (JStr "") (JBool false)
           (JArr []) [ok_response []; ok_response []] [("ok", JBool true)]).
  - exists (JBool true). repeat split; reflexivity.
  - intros id (fields & ch & (ok & Ho & _) & Hch & _).
    inversion Ho; subst. discriminate.
Defined.

(** A numeric invitee id. *)
Lemma unjoinable_invitees_raise_late_witness :
  create_channel scripted (JStr "proj-a") (JStr "") (JBool false)
    (JArr [JStr "U1"; JInt 7])
    [created_response "C1"; ok_response []; ok_response []] =
    (Raise TypeError,
     [Net (ConversationsCreate (JStr "proj-a") (JBool false));
      Net (ConversationsSetPurpose (JStr "C1") (JStr ""));
      Log (LogCreated (JStr "proj-a"))],
     [ok_response []]).
Proof.
  apply (unjoinable_invitees_raise_late scripted (JStr "proj-a") (JStr "") (JBool false)
           (JArr [JStr "U1"; JInt 7])
           [created_response "C1"; ok_response []; ok_response []]
           (JStr "C1") [("ok", JBool true)] TypeError).
  - exists [("ok", JBool true); ("channel", JObj [("id", JStr "C1")])],
      (JObj [("id", JStr "C1")]).
    split; [exists (JBool true)|]; repeat split; reflexivity.
  - exists (JBool true). repeat split; reflexivity.
  - reflexivity.
Defined.

(** A body that is a JSON list, not an object. *)
Lemma invitation_outcomes_witness :
  let w := [Some (Response true (JArr []))] in
  let o := fst (scripted w (ConversationsInvite (JStr "C1") "U1,U2")) in
  let run := invite_users_to_channel scripted (JStr "C1") (JArr [JStr "U1"; JStr "U2"]) w in
  trace_of run = [Net (ConversationsInvite (JStr "C1") "U1,U2")] /\
  world_of run = snd (scripted w (ConversationsInvite (JStr "C1") "U1,U2")) /\
  match result_of run with
  | Val v => exists fields, v = JObj fields /\ answered_ok o fields
  | Raise e =>
      (o = None /\ e = RequestException) \/
      (o <> None /\ e = PlainException /\ forall fields, ~ answered_ok o fields)
  end.
Proof.
  apply (invitation_outcomes scripted (JStr "C1") (JArr [JStr "U1"; JStr "U2"]) "U1,U2"
           [Some (Response true (JArr []))]).
  reflexivity.
Defined.

Lemma refused_create_is_logged_witness :
  create_channel scripted (JStr "proj-a") (JStr "") (JBool false) (JArr [])
    [error_response "name_taken"] =
    (Val false,
     [Net (ConversationsCreate (JStr "proj-a") (JBool false));
      Log (LogCreateError (JStr "proj-a") (JStr "name_taken"));
      Log (LogCreateNeeded (JStr "proj-a") (JStr "Unknown permissions"));
      Log (LogCreateData (JStr "proj-a")
             (JObj [("ok", JBool false); ("error", JStr "name_taken")]))],
     []).
Proof.
  apply (refused_create_is_logged scripted (JStr "proj-a") (JStr "") (JBool false)
           (JArr []) [error_response "name_taken"]
           [("ok", JBool false); ("error", JStr "name_taken")] (JBool false));
    reflexivity.
Defined.

Lemma create_all_stops_for_good_witness :
  create_all scripted demo_users ([entry "proj-a"] ++ [entry "proj-b"])
    [error_response "name_taken"; created_response "C2"] =
  create_all scripted demo_users [entry "proj-a"]
    [error_response "name_taken"; created_response "C2"].
Proof.
  apply (create_all_stops_for_good scripted demo_users [entry "proj-a"] [entry "proj-b"]).
  vm_compute. discriminate.
Defined.


(** [proj-b] and [proj-c] both exist; [proj-b] comes first in the list. *)
Lemma first_collision_is_reported_witness :
  let w := [listing ["proj-c"; "proj-b"]] in
  main scripted
    (FileJson (JArr ([entry "proj-a"] ++ entry "proj-b" :: [entry "proj-c"])))
    (FileJson demo_users) w =
    (Val ReturnedEarly,
     trace_of (existing_names scripted w)
     ++ [Log (LogDuplicate (JStr "proj-b")); Log LogStars],
     world_of (existing_names scripted w)).
Proof.
  apply (first_collision_is_reported scripted [entry "proj-a"] (entry "proj-b")
           [entry "proj-c"] demo_users [listing ["proj-c"; "proj-b"]]
           [KStr "proj-c"; KStr "proj-b"] (JStr "proj-b") (KStr "proj-b")).
  - reflexivity.
  - repeat constructor. exists (KStr "proj-a"). split.
    + exists [("name", JStr "proj-a")], (JStr "proj-a"). repeat split; reflexivity.
    + simpl. intros [H|[H|[]]]; discriminate.
  - reflexivity.
  - reflexivity.
  - simpl. auto.
Defined.

Lemma nameless_listed_channel_raises_witness :
  let w := [ok_response [("channels", JArr [entry "general"; JObj [("id", JStr "C9")]])];
            created_response "C1"] in
  main scripted (FileJson (JArr [entry "proj-a"])) (FileJson demo_users) w =
    (Raise KeyError, [Net ConversationsList],
     snd (scripted w ConversationsList)).
Proof.
  apply (nameless_listed_channel_raises scripted (JArr [entry "proj-a"]) demo_users
           [ok_response [("channels", JArr [entry "general"; JObj [("id", JStr "C9")]])];
            created_response "C1"]
           [("ok", JBool true);
            ("channels", JArr [entry "general"; JObj [("id", JStr "C9")]])]
           [entry "general"] [("id", JStr "C9")] []).
  - exists (JBool true). repeat split; reflexivity.
  - reflexivity.
  - repeat constructor. exists (KStr "general"), [("name", JStr "general")], (JStr "general").
    repeat split; reflexivity.
  - reflexivity.
Defined.

